(** * Cafe menu backend (backend/server.py): a shallow embedding

    The FastAPI handlers of [backend/server.py] are embedded as functions in
    a small state-and-exception monad over the two MongoDB collections the
    server uses ([menu_items] and [otp_verifications]).  Everything that the
    handlers obtain from outside the process is an explicit argument: clock
    readings ([datetime.now]), the [random.randint] draw, the [uuid.uuid4]
    value and the outcome of the SendGrid call. *)

From Stdlib Require Import ZArith List String Bool Lia.
From Stdlib Require Import Floats.PrimFloat DecimalString.
From Stdlib Require Import Sorted FinFun.
From Stdlib Require DecimalPos DecimalZ.
Import ListNotations.

Open Scope string_scope.
Open Scope list_scope.
Open Scope Z_scope.

(** ** Time *)

(** A [datetime] is a number of microseconds since the epoch (UTC), the
    resolution of Python's [datetime].  Documents keep their timestamps as
    ISO strings ([isoformat]) which the handlers parse back
    ([datetime.fromisoformat]); that pair is lossless, so stored timestamps
    are kept as [datetime] values. *)
Definition datetime := Z.

Definition microseconds_per_second : Z := 1000000.

Definition timedelta_minutes (n : Z) : Z := n * 60 * microseconds_per_second.
Definition timedelta_days (n : Z) : Z := n * 86400 * microseconds_per_second.

(** ** Models *)

Record MenuItem := mkMenuItem {
  id : string;
  category : string;
  name : string;
  price : float;
  description : option string;
  is_special : bool;
  available : bool;
  image_url : option string;
  created_at : datetime
}.

Record MenuItemCreate := mkMenuItemCreate {
  new_category : string;
  new_name : string;
  new_price : float;
  new_description : option string;
  new_is_special : option bool;
  new_available : option bool;
  new_image_url : option string
}.

Record MenuItemUpdate := mkMenuItemUpdate {
  upd_category : option string;
  upd_name : option string;
  upd_price : option float;
  upd_description : option string;
  upd_is_special : option bool;
  upd_available : option bool;
  upd_image_url : option string
}.

(** The document [send_otp] stores in [otp_verifications]. *)
Record OTPDoc := mkOTPDoc {
  otp_email : string;
  otp : string;
  otp_created_at : datetime;
  expires_at : datetime
}.

(** ** Exceptions and results *)

(** [HTTPException] is what the handlers raise themselves.  [Unhandled]
    stands for any other Python exception leaving a handler (the framework
    answers 500); its argument is the exception class. *)
Inductive exception :=
| HTTPException (status_code : Z) (detail : string)
| Unhandled (exc : string).

Inductive result (A : Type) :=
| Ok (a : A)
| Raise (e : exception).
Arguments Ok {A} a.
Arguments Raise {A} e.

(** ** The document store *)

Module Collection.
Section Ops.
Context {D : Type}.

(** [find_one(filter)]: the first matching document. *)
Definition find_one (p : D -> bool) (c : list D) : option D := List.find p c.

(** [find(filter).to_list(n)]: the first [n] matching documents. *)
Definition find_to_list (p : D -> bool) (n : nat) (c : list D) : list D :=
  firstn n (filter p c).

(** [insert_one(doc)]. *)
Definition insert_one (d : D) (c : list D) : list D := c ++ [d].

(** [delete_one(filter)]: removes the first matching document. *)
Fixpoint delete_one (p : D -> bool) (c : list D) : list D :=
  match c with
  | [] => []
  | d :: c' => if p d then c' else d :: delete_one p c'
  end.

(** [result.deleted_count] of [delete_one]. *)
Definition deleted_count (p : D -> bool) (c : list D) : Z :=
  if existsb p c then 1 else 0.

(** [delete_many(filter)]. *)
Definition delete_many (p : D -> bool) (c : list D) : list D :=
  filter (fun d => negb (p d)) c.

(** [update_one(filter, {"$set": ...})]: patches the first match. *)
Fixpoint update_one (p : D -> bool) (patch : D -> D) (c : list D) : list D :=
  match c with
  | [] => []
  | d :: c' => if p d then patch d :: c' else d :: update_one p patch c'
  end.

(** Number of documents matching a filter. *)
Definition count (p : D -> bool) (c : list D) : nat := List.length (filter p c).
End Ops.
End Collection.

Record Db := mkDb {
  menu_items : list MenuItem;
  otp_verifications : list OTPDoc
}.

(** ** The handler monad: state passing with exceptions.  A raised
    exception keeps the writes made before it (nothing is rolled back). *)

Definition handler (A : Type) : Type := Db -> result A * Db.

Definition ret {A} (a : A) : handler A := fun db => (Ok a, db).
Definition raise {A} (e : exception) : handler A := fun db => (Raise e, db).
Definition bind {A B} (m : handler A) (k : A -> handler B) : handler B :=
  fun db =>
    match m db with
    | (Ok a, db') => k a db'
    | (Raise e, db') => (Raise e, db')
    end.

Declare Scope handler_scope.
Delimit Scope handler_scope with handler.
Notation "x <- m ;; k" := (bind m (fun x => k))
  (at level 61, m at next level, right associativity) : handler_scope.
Notation "m ;;; k" := (bind m (fun _ => k))
  (at level 61, right associativity) : handler_scope.
Open Scope handler_scope.

Definition with_menu_items {A} (read : list MenuItem -> A)
    (write : list MenuItem -> list MenuItem) : handler A :=
  fun db =>
    (Ok (read (menu_items db)),
     {| menu_items := write (menu_items db);
        otp_verifications := otp_verifications db |}).

Definition with_otp_verifications {A} (read : list OTPDoc -> A)
    (write : list OTPDoc -> list OTPDoc) : handler A :=
  fun db =>
    (Ok (read (otp_verifications db)),
     {| menu_items := menu_items db;
        otp_verifications := write (otp_verifications db) |}).

Definition keep {D : Type} (c : list D) : list D := c.
Definition unit_of {D : Type} (_ : list D) : unit := tt.

(** ** Query filters *)

Definition by_id (item_id : string) (d : MenuItem) : bool :=
  String.eqb (id d) item_id.

Definition by_email (email : string) (d : OTPDoc) : bool :=
  String.eqb (otp_email d) email.

(** ** Menu catalogue: public routes *)

(** [GET /menu]: [find({"available": True}).to_list(1000)]. *)
Definition get_menu : handler (list MenuItem) :=
  with_menu_items (Collection.find_to_list available 1000) keep.

(** [GET /menu/specials]:
    [find({"is_special": True, "available": True}).to_list(1000)]. *)
Definition get_specials : handler (list MenuItem) :=
  with_menu_items
    (Collection.find_to_list (fun d => is_special d && available d) 1000) keep.

(** [GET /menu/categories]: [distinct("category")] gives every category
    value once (over all items, available or not); [sorted] orders them, by
    code point, which for the UTF-8 bytes of a [string] is the byte-wise
    order of [String.leb]. *)
Definition distinct (values : list string) : list string :=
  nodup String.string_dec values.

Fixpoint insort (x : string) (l : list string) : list string :=
  match l with
  | [] => [x]
  | y :: l' => if String.leb x y then x :: l else y :: insort x l'
  end.

Definition sorted (l : list string) : list string := fold_right insort [] l.

Definition get_categories : handler (list string) :=
  with_menu_items (fun items => sorted (distinct (map category items))) keep.

(** ** Menu catalogue: admin routes.  Each takes the [admin_email] that the
    [get_current_admin] dependency resolved. *)

(** [GET /admin/menu]: [find({}).to_list(1000)]. *)
Definition get_all_menu_items (admin_email : string) : handler (list MenuItem) :=
  with_menu_items (Collection.find_to_list (fun _ => true) 1000) keep.

(** The [MenuItem] built from [item.model_dump()]: [id] and [created_at] come from the
    default factories ([uuid4], [datetime.now]); the model's [is_special] and
    [available] are plain [bool], so a [None] for either is rejected by
    pydantic. *)
Definition MenuItem_of_create (uuid4 : string) (now : datetime)
    (item : MenuItemCreate) : result MenuItem :=
  match new_is_special item, new_available item with
  | Some s, Some a =>
      Ok {| id := uuid4;
            category := new_category item;
            name := new_name item;
            price := new_price item;
            description := new_description item;
            is_special := s;
            available := a;
            image_url := new_image_url item;
            created_at := now |}
  | _, _ => Raise (Unhandled "pydantic.ValidationError")
  end.

(** [POST /admin/menu]. *)
Definition create_menu_item (uuid4 : string) (now : datetime)
    (item : MenuItemCreate) (admin_email : string) : handler MenuItem :=
  match MenuItem_of_create uuid4 now item with
  | Raise e => raise e
  | Ok menu_item =>
      with_menu_items unit_of (Collection.insert_one menu_item) ;;;
      ret menu_item
  end.

(** One entry of the [update_data] dictionary. *)
Inductive field_update :=
| Set_category (v : string)
| Set_name (v : string)
| Set_price (v : float)
| Set_description (v : string)
| Set_is_special (v : bool)
| Set_available (v : bool)
| Set_image_url (v : string).

Definition entry {A} (mk : A -> field_update) (v : option A) : list field_update :=
  match v with
  | Some a => [mk a]
  | None => []
  end.

(** [{k: v for k, v in item.model_dump().items() if v is not None}], in the
    order of the model's fields. *)
Definition update_data_of (item : MenuItemUpdate) : list field_update :=
  entry Set_category (upd_category item) ++
  entry Set_name (upd_name item) ++
  entry Set_price (upd_price item) ++
  entry Set_description (upd_description item) ++
  entry Set_is_special (upd_is_special item) ++
  entry Set_available (upd_available item) ++
  entry Set_image_url (upd_image_url item).

Definition set_field (d : MenuItem) (f : field_update) : MenuItem :=
  match f with
  | Set_category v =>
      mkMenuItem (id d) v (name d) (price d) (description d) (is_special d)
        (available d) (image_url d) (created_at d)
  | Set_name v =>
      mkMenuItem (id d) (category d) v (price d) (description d) (is_special d)
        (available d) (image_url d) (created_at d)
  | Set_price v =>
      mkMenuItem (id d) (category d) (name d) v (description d) (is_special d)
        (available d) (image_url d) (created_at d)
  | Set_description v =>
      mkMenuItem (id d) (category d) (name d) (price d) (Some v) (is_special d)
        (available d) (image_url d) (created_at d)
  | Set_is_special v =>
      mkMenuItem (id d) (category d) (name d) (price d) (description d) v
        (available d) (image_url d) (created_at d)
  | Set_available v =>
      mkMenuItem (id d) (category d) (name d) (price d) (description d)
        (is_special d) v (image_url d) (created_at d)
  | Set_image_url v =>
      mkMenuItem (id d) (category d) (name d) (price d) (description d)
        (is_special d) (available d) (Some v) (created_at d)
  end.

(** The [{"$set": update_data}] patch. *)
Definition dollar_set (update_data : list field_update) (d : MenuItem) : MenuItem :=
  fold_left set_field update_data d.

Definition is_empty {A} (l : list A) : bool :=
  match l with
  | [] => true
  | _ :: _ => false
  end.

(** [PUT /admin/menu/{item_id}]. *)
Definition update_menu_item (item_id : string) (item : MenuItemUpdate)
    (admin_email : string) : handler MenuItem :=
  existing_item <- with_menu_items (Collection.find_one (by_id item_id)) keep ;;
  match existing_item with
  | None => raise (HTTPException 404 "Menu item not found")
  | Some _ =>
      let update_data := update_data_of item in
      (if is_empty update_data then ret tt
       else with_menu_items unit_of
              (Collection.update_one (by_id item_id) (dollar_set update_data))) ;;;
      updated_item <- with_menu_items (Collection.find_one (by_id item_id)) keep ;;
      match updated_item with
      | None => raise (Unhandled "AttributeError")
      | Some d => ret d
      end
  end.

(** [DELETE /admin/menu/{item_id}]. *)
Definition delete_menu_item (item_id : string) (admin_email : string)
    : handler string :=
  deleted <- with_menu_items (Collection.deleted_count (by_id item_id))
               (Collection.delete_one (by_id item_id)) ;;
  if Z.eqb deleted 0 then raise (HTTPException 404 "Menu item not found")
  else ret "Menu item deleted successfully".

Definition set_is_special (v : bool) (d : MenuItem) : MenuItem :=
  dollar_set [Set_is_special v] d.

Definition set_available (v : bool) (d : MenuItem) : MenuItem :=
  dollar_set [Set_available v] d.

(** [PUT /admin/menu/{item_id}/toggle-special]; the answer carries the new
    value of the flag. *)
Definition toggle_special (item_id : string) (admin_email : string)
    : handler bool :=
  existing_item <- with_menu_items (Collection.find_one (by_id item_id)) keep ;;
  match existing_item with
  | None => raise (HTTPException 404 "Menu item not found")
  | Some d =>
      let new_status := negb (is_special d) in
      with_menu_items unit_of
        (Collection.update_one (by_id item_id) (set_is_special new_status)) ;;;
      ret new_status
  end.

(** [PUT /admin/menu/{item_id}/toggle-available]. *)
Definition toggle_available (item_id : string) (admin_email : string)
    : handler bool :=
  existing_item <- with_menu_items (Collection.find_one (by_id item_id)) keep ;;
  match existing_item with
  | None => raise (HTTPException 404 "Menu item not found")
  | Some d =>
      let new_status := negb (available d) in
      with_menu_items unit_of
        (Collection.update_one (by_id item_id) (set_available new_status)) ;;;
      ret new_status
  end.

(** ** Start-up seeding *)

(** One dictionary of the [menu_data] table of [preload_menu_data]. *)
Record MenuSeed := mkSeed {
  seed_category : string;
  seed_name : string;
  seed_price : float;
  seed_description : string
}.

(** The [menu_data] table.  Its prices are integer literals, which the
    [float] field of [MenuItem] takes as the same number. *)
Definition menu_data : list MenuSeed := [
  mkSeed "Lassi" "Sweet Lassi" 40 "Refreshing sweet lassi made from curd and sugar";
  mkSeed "Lassi" "Banana Lassi" 55 "Creamy banana lassi";
  mkSeed "Lassi" "Mango Lassi" 60 "Refreshing mango lassi";
  mkSeed "Lassi" "Fruit Lassi" 60 "Mixed fruit lassi";
  mkSeed "Lassi" "Strawberry Lassi" 60 "Fresh strawberry lassi";
  mkSeed "Lassi" "Pista Lassi" 70 "Rich pistachio lassi";
  mkSeed "Lassi" "Chocolate Lassi" 70 "Chocolate flavored lassi";
  mkSeed "Lassi" "Dryfruit Lassi" 80 "Lassi with mixed dry fruits";
  mkSeed "Lassi" "Fruit & Nut Lassi" 80 "Premium fruit and nut lassi";
  mkSeed "Lassi" "Royal Lassi" 80 "Special royal lassi with saffron";
  mkSeed "Falooda" "Classic Falooda" 80 "Traditional falooda with rose syrup";
  mkSeed "Falooda" "Pista Falooda" 99 "Pistachio flavored falooda";
  mkSeed "Falooda" "Fruity Falooda" 99 "Falooda with fresh fruits";
  mkSeed "Falooda" "Royal Kashmiri Falooda" 120 "Premium Kashmiri style falooda";
  mkSeed "Milk Shakes" "Banana Bonkers" 60 "Thick banana milkshake";
  mkSeed "Milk Shakes" "Pista Shake" 60 "Pistachio milkshake";
  mkSeed "Milk Shakes" "Vanilla Shake" 60 "Classic vanilla milkshake";
  mkSeed "Milk Shakes" "Belgian Chocolate" 70 "Rich Belgian chocolate shake";
  mkSeed "Milk Shakes" "Very Berry Strawberry" 70 "Strawberry milkshake";
  mkSeed "Milk Shakes" "Oreo" 85 "Oreo cookie milkshake";
  mkSeed "Milk Shakes" "Chocochip Cookies" 85 "Chocolate chip cookie shake";
  mkSeed "Milk Shakes" "Kala Jamoon" 85 "Kala jamun flavored shake";
  mkSeed "Milk Shakes" "Mango Alphonso" 85 "Alphonso mango shake";
  mkSeed "Milk Shakes" "Blueberry" 85 "Fresh blueberry shake";
  mkSeed "Milk Shakes" "Kesar Pista" 85 "Saffron and pistachio shake";
  mkSeed "Milk Shakes" "Lychee & Lychee" 110 "Double lychee shake";
  mkSeed "Milk Shakes" "Mango Lychee" 120 "Mango and lychee fusion";
  mkSeed "Milk Shakes" "Cherry Bubble Shake" 120 "Cherry shake with popping boba";
  mkSeed "Milk Shakes" "Mango Bubble Shake" 120 "Mango shake with popping boba";
  mkSeed "Milk Shakes" "Berry Bubble Shake" 120 "Mixed berry shake with popping boba";
  mkSeed "Dry Fruit Shakes" "Dry Fruit Shake" 99 "Mixed dry fruit shake";
  mkSeed "Dry Fruit Shakes" "Arabian Night Shake" 109 "Arabian style dry fruit shake";
  mkSeed "Dry Fruit Shakes" "Anjeer Shake" 110 "Fig dry fruit shake";
  mkSeed "Dry Fruit Shakes" "Kaju Anjeer Shake" 120 "Cashew and fig shake";
  mkSeed "Muds & Hotties" "Mississippi Mud" 120 "Rich chocolate mud";
  mkSeed "Muds & Hotties" "Oreo Mud" 130 "Oreo chocolate mud";
  mkSeed "Muds & Hotties" "KitKat Mud" 130 "KitKat chocolate mud";
  mkSeed "Muds & Hotties" "Choco Blast" 70 "Hot chocolate blast";
  mkSeed "Muds & Hotties" "Cafe Coffee" 80 "Hot café coffee";
  mkSeed "Muds & Hotties" "Minty Coffee" 80 "Coffee with mint";
  mkSeed "Muds & Hotties" "Marshmallow Hot Chocolate" 90 "Hot chocolate with marshmallows";
  mkSeed "Fries & Crazy Bites" "Just Masala Fries" 79 "Masala seasoned fries";
  mkSeed "Fries & Crazy Bites" "Chilli Cheese Fries" 89 "Fries with chili and cheese";
  mkSeed "Fries & Crazy Bites" "Schezwan Fries" 89 "Spicy schezwan fries";
  mkSeed "Fries & Crazy Bites" "Peri Peri Fries" 99 "Peri peri flavored fries";
  mkSeed "Fries & Crazy Bites" "Smilies" 99 "Crispy potato smilies";
  mkSeed "Fries & Crazy Bites" "Crazy Cheesy Nuggets" 99 "Cheese filled nuggets";
  mkSeed "Fries & Crazy Bites" "Cheese Pizza Fingers" 99 "Cheesy pizza fingers";
  mkSeed "Fries & Crazy Bites" "Loaded Nachos" 120 "Nachos with loaded toppings";
  mkSeed "Fries & Crazy Bites" "Wild Wedges" 120 "Spicy potato wedges";
  mkSeed "Momos" "Mix Veg Momos" 89 "Steamed vegetable momos";
  mkSeed "Momos" "Schezwan Momos" 89 "Spicy schezwan momos";
  mkSeed "Momos" "Paneer Momos" 99 "Paneer filled momos";
  mkSeed "Momos" "Mushroom Momos" 99 "Mushroom filled momos";
  mkSeed "Momos" "Corn N Cheese Momos" 100 "Corn and cheese momos";
  mkSeed "Momos" "Paneer Tikka Momos" 109 "Paneer tikka flavored momos";
  mkSeed "Burger Pav" "Classic Vadapav" 29 "Traditional Mumbai vadapav";
  mkSeed "Burger Pav" "Tandoori Burgerpav" 45 "Tandoori flavored burger";
  mkSeed "Burger Pav" "Crispy N Crunchy BP" 50 "Crispy burger pav";
  mkSeed "Burger Pav" "Horny Corny Burgerpav" 50 "Corn filled burger";
  mkSeed "Burger Pav" "Maharaja Burgerpav" 55 "Special maharaja burger";
  mkSeed "Burger Pav" "Cheesemaar Burgerpav" 55 "Extra cheese burger";
  mkSeed "Cold Coffee" "Cold Coffee" 60 "Classic cold coffee";
  mkSeed "Cold Coffee" "Chocolate Coffee" 80 "Chocolate flavored cold coffee";
  mkSeed "Cold Coffee" "Oreo & Coffee" 80 "Oreo cold coffee";
  mkSeed "Cold Coffee" "Coffee On Rocks" 80 "Iced coffee on rocks";
  mkSeed "Cold Coffee" "Baby Bubble Coffee" 110 "Coffee with popping boba";
  mkSeed "Cold Coffee" "Mud Coffee" 120 "Coffee mud shake";
  mkSeed "Cappuccino" "Classic Cappuccino" 80 "Traditional cappuccino";
  mkSeed "Cappuccino" "Caramel Cappuccino" 90 "Caramel flavored cappuccino";
  mkSeed "Cappuccino" "Mocha Cappuccino" 95 "Chocolate mocha cappuccino";
  mkSeed "On Nutella" "Nutella Shake" 120 "Creamy Nutella shake";
  mkSeed "On Nutella" "Nutella Brownie Icecream" 135 "Nutella with brownie and ice cream";
  mkSeed "On Nutella" "Nutella Fudge Icecream" 135 "Nutella fudge with ice cream";
  mkSeed "On Mojito" "Blue Blast" 79 "Blue mojito blast";
  mkSeed "On Mojito" "Bubble Gum" 89 "Bubble gum mojito";
  mkSeed "On Mojito" "Boba Melon" 89 "Melon mojito with boba";
  mkSeed "On Mojito" "Mango Bubble" 89 "Mango mojito with boba";
  mkSeed "On Mojito" "Berry Pop Bubble" 99 "Berry mojito with popping boba";
  mkSeed "Ice Creams" "Fruit Salad Icecream" 90 "Mixed fruit ice cream";
  mkSeed "Ice Creams" "Fruit Salad Jelly" 99 "Fruit salad with jelly";
  mkSeed "Ice Creams" "Mexican Brownie" 80 "Mexican brownie with ice cream";
  mkSeed "Ice Creams" "Chocolate Fudge" 80 "Rich chocolate fudge";
  mkSeed "Ice Creams" "Strawberry Fudge" 80 "Strawberry fudge ice cream";
  mkSeed "Ice Creams" "Mocha Fudge" 85 "Coffee mocha fudge";
  mkSeed "Ice Creams" "Mocha Mexican Brownie" 95 "Mocha brownie ice cream";
  mkSeed "Ice Creams" "Black Currant Fudge" 90 "Black currant fudge";
  mkSeed "Ice Creams" "Butterscotch Fudge" 99 "Butterscotch fudge ice cream";
  mkSeed "Ice Creams" "Berry-O-La Fudge" 99 "Mixed berry fudge";
  mkSeed "Ice Creams" "Gud Bud" 120 "Special gud bud ice cream";
  mkSeed "Ice Creams" "Death By Chocolate" 130 "Ultimate chocolate overload";
  mkSeed "Ice Creams" "Dry Fruit Sundae" 135 "Sundae with dry fruits";
  mkSeed "Ice Creams" "Lychee With Icecream" 135 "Lychee ice cream special";
  mkSeed "Ice Creams" "Roasted Almond" 135 "Roasted almond ice cream";
  mkSeed "Ice Creams" "Choco Almond" 135 "Chocolate almond ice cream";
  mkSeed "Ice Creams" "Sizzling Brownie" 139 "Hot sizzling brownie";
  mkSeed "Ice Creams" "Kerala Puttu Ice Cream" 139 "Traditional Kerala puttu ice cream";
  mkSeed "Fresh Juices" "Fresh Lime" 40 "Fresh lime juice";
  mkSeed "Fresh Juices" "Masala Lime" 45 "Spicy masala lime";
  mkSeed "Fresh Juices" "Mint Lime" 45 "Refreshing mint lime";
  mkSeed "Fresh Juices" "Watermelon" 60 "Fresh watermelon juice";
  mkSeed "Fresh Juices" "Muskmelon" 60 "Fresh muskmelon juice";
  mkSeed "Fresh Juices" "Pineapple" 70 "Fresh pineapple juice";
  mkSeed "Fresh Juices" "Papaya" 70 "Fresh papaya juice";
  mkSeed "Fresh Juices" "Apple" 80 "Fresh apple juice";
  mkSeed "Fresh Juices" "Orange" 80 "Fresh orange juice";
  mkSeed "Fresh Juices" "Mango" 80 "Fresh mango juice";
  mkSeed "Fresh Juices" "ABC" 90 "Apple, Beetroot, Carrot juice";
  mkSeed "Fresh Juices" "CAP" 90 "Carrot, Apple, Pineapple juice";
  mkSeed "Add Ons" "Extra Chocochips" 15 "Add chocolate chips";
  mkSeed "Add Ons" "Extra Chocolate" 15 "Extra chocolate topping";
  mkSeed "Add Ons" "Extra Nuts" 25 "Extra dry fruits and nuts";
  mkSeed "Add Ons" "Extra Cheese" 25 "Extra cheese topping";
  mkSeed "Add Ons" "Extra Sauce" 20 "Extra sauce of your choice"
]%float.

(** The [MenuItem] built from one table entry: [is_special], [available] and
    [image_url] take the model's defaults. *)
Definition MenuItem_of_seed (uuid4 : string) (now : datetime)
    (item_data : MenuSeed) : MenuItem :=
  {| id := uuid4;
     category := seed_category item_data;
     name := seed_name item_data;
     price := seed_price item_data;
     description := Some (seed_description item_data);
     is_special := false;
     available := true;
     image_url := Some "";
     created_at := now |}.

(** The [for item_data in menu_data] loop; [uuid4 i] and [now i] are the
    identifier and the clock reading drawn for the [i]-th entry. *)
Fixpoint insert_each (uuid4 : nat -> string) (now : nat -> datetime) (i : nat)
    (data : list MenuSeed) : handler unit :=
  match data with
  | [] => ret tt
  | item_data :: rest =>
      with_menu_items unit_of
        (Collection.insert_one (MenuItem_of_seed (uuid4 i) (now i) item_data)) ;;;
      insert_each uuid4 now (S i) rest
  end.

(** The body of [preload_menu_data] over a table. *)
Definition preload (data : list MenuSeed) (uuid4 : nat -> string)
    (now : nat -> datetime) : handler unit :=
  count <- with_menu_items (Collection.count (fun _ => true)) keep ;;
  if Nat.eqb count 0 then insert_each uuid4 now 0 data else ret tt.

(** [preload_menu_data], run at start-up. *)
Definition preload_menu_data (uuid4 : nat -> string) (now : nat -> datetime)
    : handler unit :=
  preload menu_data uuid4 now.

(** ** Authentication *)

Record SendOTPRequest := mkSendOTPRequest { send_email : string }.

Record VerifyOTPRequest := mkVerifyOTPRequest {
  verify_email : string;
  verify_otp_code : string
}.

(** A value found under a key of a token's payload: a JSON string, or any
    other JSON value (a number, a list, null, ...), kept as its text. *)
Inductive claim_value :=
| StrValue (s : string)
| OtherValue (json : string).

(** The payload of a session token as far as the server looks at it: what
    is under ["email"], if anything, and the ["exp"] entry, if any, a
    NumericDate (a whole number of seconds since the epoch). *)
Record jwt_claims := mkClaims {
  claim_email : option claim_value;
  claim_exp : option Z
}.

(** A bearer credential as [jwt.decode] sees it: either one it rejects with
    an [InvalidTokenError] that is neither a bad signature nor an expired
    [exp] (not three segments, bad base64 or JSON, another algorithm in the
    header, a payload failing another check of the library), or a payload
    with its signature. *)
Inductive jwt_token :=
| Malformed (raw : string)
| Signed (claims : jwt_claims) (signature : string).

(** The exceptions of [jwt.decode]; the last two are [InvalidTokenError]s
    that are not [ExpiredSignatureError]. *)
Inductive jwt_error :=
| ExpiredSignatureError
| InvalidSignatureError
| DecodeError.

Record TokenResponse := mkTokenResponse {
  token : jwt_token;
  email : string
}.

(** [str] of an integer. *)
Definition str (n : Z) : string := DecimalString.NilZero.string_of_int (Z.to_int n).

Definition lift {A} (r : result A) : handler A := fun db => (r, db).

Section Server.

(** Configuration read from the environment at start-up. *)
Variable ADMIN_EMAIL : string.
Variable JWT_SECRET : string.

(** The HS256 signature (HMAC-SHA256, base64url) of a claims set under a
    key.  PyJWT and the hash are outside the repository; nothing below
    depends on more than this being a function. *)
Variable HS256 : string -> jwt_claims -> string.

(** [jwt.encode(payload, key, algorithm="HS256")] for the payload
    [{"email": email, "exp": exp}]: a [datetime] under ["exp"] is turned into
    a NumericDate by dropping the microseconds. *)
Definition jwt_encode (payload_email : string) (payload_exp : datetime)
    (key : string) : jwt_token :=
  let claims := {| claim_email := Some (StrValue payload_email);
                   claim_exp := Some (payload_exp / microseconds_per_second) |} in
  Signed claims (HS256 key claims).

(** The expiry check of [jwt.decode]: a payload without ["exp"] never
    expires, one with it is expired from that second on ([exp <= now]). *)
Definition exp_passed (now : datetime) (claims : jwt_claims) : bool :=
  match claim_exp claims with
  | Some exp => exp * microseconds_per_second <=? now
  | None => false
  end.

(** [jwt.decode(token, key, algorithms=["HS256"])] at clock reading [now]:
    the signature is checked first, then the expiry. *)
Definition jwt_decode (now : datetime) (tok : jwt_token) (key : string)
    : jwt_error + jwt_claims :=
  match tok with
  | Malformed _ => inl DecodeError
  | Signed claims signature =>
      if String.eqb signature (HS256 key claims) then
        if exp_passed now claims
        then inl ExpiredSignatureError
        else inr claims
      else inl InvalidSignatureError
  end.

(** [generate_otp]: [randint] is the random source of the call. *)
Definition generate_otp (randint : Z -> Z -> Z) : string :=
  str (randint 100000 999999).

(** [send_otp_email]: [sendgrid_ok] tells whether building and sending the
    message went through without an exception. *)
Definition send_otp_email (sendgrid_ok : bool) (to_email otp_code : string)
    : result bool :=
  if sendgrid_ok then Ok true
  else Raise (HTTPException 500 "Failed to send OTP email").

(** [create_jwt_token], at clock reading [now]. *)
Definition create_jwt_token (now : datetime) (admin : string) : jwt_token :=
  jwt_encode admin (now + timedelta_days 7) JWT_SECRET.

(** [verify_jwt_token], at clock reading [now].  [payload["email"]] is
    whatever the payload holds under that key; without the key the lookup
    raises a [KeyError], which no [except] clause of the function catches. *)
Definition verify_jwt_token (now : datetime) (tok : jwt_token)
    : result claim_value :=
  match jwt_decode now tok JWT_SECRET with
  | inr payload =>
      match claim_email payload with
      | Some v => Ok v
      | None => Raise (Unhandled "KeyError")
      end
  | inl ExpiredSignatureError => Raise (HTTPException 401 "Token has expired")
  | inl _ => Raise (HTTPException 401 "Invalid token")
  end.

(** [get_current_admin].  [email != ADMIN_EMAIL] holds for every value
    other than the string [ADMIN_EMAIL]; the email returned is that
    string. *)
Definition get_current_admin (now : datetime) (credentials : jwt_token)
    : result string :=
  match verify_jwt_token now credentials with
  | Raise e => Raise e
  | Ok (StrValue admin) =>
      if negb (String.eqb admin ADMIN_EMAIL)
      then Raise (HTTPException 403 "Not authorized")
      else Ok admin
  | Ok (OtherValue _) => Raise (HTTPException 403 "Not authorized")
  end.

(** An admin route: its body runs once the [get_current_admin] dependency
    has resolved, on the email it returned. *)
Definition admin_route {A} (now : datetime) (credentials : jwt_token)
    (body : string -> handler A) : handler A :=
  match get_current_admin now credentials with
  | Raise e => raise e
  | Ok admin_email => body admin_email
  end.

(** The [otp_doc] dictionary of [send_otp].  The handler reads the clock
    twice: [now_created] for [created_at] and then [now_expiry] for
    [expires_at]. *)
Definition new_otp_doc (request_email otp_code : string)
    (now_created now_expiry : datetime) : OTPDoc :=
  {| otp_email := request_email;
     otp := otp_code;
     otp_created_at := now_created;
     expires_at := now_expiry + timedelta_minutes 10 |}.

(** [POST /auth/send-otp]. *)
Definition send_otp (randint : Z -> Z -> Z) (now_created now_expiry : datetime)
    (sendgrid_ok : bool) (request : SendOTPRequest) : handler (string * string) :=
  if negb (String.eqb (send_email request) ADMIN_EMAIL)
  then raise (HTTPException 403 "Email not authorized")
  else
    let otp_code := generate_otp randint in
    let otp_doc := new_otp_doc (send_email request) otp_code now_created now_expiry in
    with_otp_verifications unit_of
      (Collection.delete_many (by_email (send_email request))) ;;;
    with_otp_verifications unit_of (Collection.insert_one otp_doc) ;;;
    lift (send_otp_email sendgrid_ok (send_email request) otp_code) ;;;
    ret ("OTP sent successfully", send_email request).

(** [POST /auth/verify-otp].  [now] is the clock reading of the expiry
    check, [now_token] the later one inside [create_jwt_token]. *)
Definition verify_otp (now now_token : datetime) (request : VerifyOTPRequest)
    : handler TokenResponse :=
  if negb (String.eqb (verify_email request) ADMIN_EMAIL)
  then raise (HTTPException 403 "Email not authorized")
  else
    otp_doc <- with_otp_verifications
                 (Collection.find_one (by_email (verify_email request))) keep ;;
    match otp_doc with
    | None => raise (HTTPException 404 "OTP not found or expired")
    | Some doc =>
        if now >? expires_at doc then
          with_otp_verifications unit_of
            (Collection.delete_one (by_email (verify_email request))) ;;;
          raise (HTTPException 400 "OTP has expired")
        else if negb (String.eqb (otp doc) (verify_otp_code request)) then
          raise (HTTPException 400 "Invalid OTP")
        else
          with_otp_verifications unit_of
            (Collection.delete_one (by_email (verify_email request))) ;;;
          ret {| token := create_jwt_token now_token (verify_email request);
                 email := verify_email request |}
    end.

End Server.

(** ** Vocabulary of the statements *)

(** The value of a field after a partial update: the one provided, or else
    the prior one. *)
Definition provided_or {A} (provided : option A) (prior : A) : A :=
  match provided with
  | Some v => v
  | None => prior
  end.

(** The stores the two authentication routes can produce, starting from an
    empty [otp_verifications] collection; they are the only routes that
    write to it. *)
Inductive reachable (ADMIN_EMAIL JWT_SECRET : string)
    (HS256 : string -> jwt_claims -> string) : Db -> Prop :=
| reachable_start (items : list MenuItem) :
    reachable ADMIN_EMAIL JWT_SECRET HS256 (mkDb items [])
| reachable_send_otp db randint now_created now_expiry sendgrid_ok request :
    reachable ADMIN_EMAIL JWT_SECRET HS256 db ->
    reachable ADMIN_EMAIL JWT_SECRET HS256
      (snd (send_otp ADMIN_EMAIL randint now_created now_expiry sendgrid_ok request db))
| reachable_verify_otp db now now_token request :
    reachable ADMIN_EMAIL JWT_SECRET HS256 db ->
    reachable ADMIN_EMAIL JWT_SECRET HS256
      (snd (verify_otp ADMIN_EMAIL JWT_SECRET HS256 now now_token request db)).

(** The items the seeding loop appends for a table, from the [i]-th
    identifier and clock reading on. *)
Fixpoint seeded (uuid4 : nat -> string) (now : nat -> datetime) (i : nat)
    (data : list MenuSeed) : list MenuItem :=
  match data with
  | [] => []
  | row :: rest =>
      MenuItem_of_seed (uuid4 i) (now i) row :: seeded uuid4 now (S i) rest
  end.

(** A series of [verify_otp] calls for the administrator, one per
    (clock reading, token clock reading, code), each on the store the
    previous one left; the answers come in order. *)
Fixpoint verify_attempts (ADMIN_EMAIL JWT_SECRET : string)
    (HS256 : string -> jwt_claims -> string)
    (attempts : list (datetime * datetime * string)) (db : Db)
    : list (result TokenResponse) * Db :=
  match attempts with
  | [] => ([], db)
  | (now, now_token, code) :: rest =>
      let (answer, db') :=
        verify_otp ADMIN_EMAIL JWT_SECRET HS256 now now_token
          (mkVerifyOTPRequest ADMIN_EMAIL code) db in
      let (answers, db'') := verify_attempts ADMIN_EMAIL JWT_SECRET HS256 rest db' in
      (answer :: answers, db'')
  end.

(** Decimal digits: the digit [k] put in front of a decimal number, and the
    character that writes it. *)
Definition decimal_digit (k : N) (rest : Decimal.uint) : Decimal.uint :=
  match k with
  | 0%N => Decimal.D0 rest | 1%N => Decimal.D1 rest | 2%N => Decimal.D2 rest
  | 3%N => Decimal.D3 rest | 4%N => Decimal.D4 rest | 5%N => Decimal.D5 rest
  | 6%N => Decimal.D6 rest | 7%N => Decimal.D7 rest | 8%N => Decimal.D8 rest
  | _ => Decimal.D9 rest
  end.

Definition digit_char (k : N) : Ascii.ascii := Ascii.ascii_of_N (48 + k).

(** ** Sample data used by the concrete runs at the end *)

Definition sample_item : MenuItem :=
  {| id := "item-1"; category := "Lassi"; name := "Sweet Lassi"; price := 40%float;
     description := Some "Refreshing sweet lassi"; is_special := true;
     available := true; image_url := Some ""; created_at := 0 |}.

(** A catalogue of 1001 available specials. *)
Definition big_catalogue : Db :=
  {| menu_items := repeat sample_item 1001; otp_verifications := [] |}.

Definition sample_admin : string := "admin@cafe.example".
Definition sample_secret : string := "not-the-real-secret".

(** A stand-in for HMAC-SHA256, good enough to run the model. *)
Definition sample_hs256 (key : string) (claims : jwt_claims) : string :=
  String.append key
    (String.append "."
       match claim_email claims with
       | Some (StrValue s) => s
       | _ => ""
       end).

(** A random source that always draws the lower bound. *)
Definition sample_randint (lo hi : Z) : Z := lo.

Definition empty_store : Db := {| menu_items := []; otp_verifications := [] |}.

Definition one_item_store : Db :=
  {| menu_items := [sample_item]; otp_verifications := [] |}.

(** A create input with an empty name, an empty category and a negative
    price. *)
Definition blank_negative_create : MenuItemCreate :=
  {| new_category := ""; new_name := ""; new_price := (-5)%float;
     new_description := Some ""; new_is_special := Some false;
     new_available := Some true; new_image_url := Some "" |}.

(** A partial payload with an empty name and a negative price. *)
Definition blank_negative_update : MenuItemUpdate :=
  {| upd_category := None; upd_name := Some ""; upd_price := Some (-5)%float;
     upd_description := None; upd_is_special := None; upd_available := None;
     upd_image_url := None |}.

(** The challenge a request at clock readings 0 and 0 stores. *)
Definition sample_challenge : OTPDoc :=
  new_otp_doc sample_admin (generate_otp sample_randint) 0 0.

Definition challenge_store : Db :=
  {| menu_items := []; otp_verifications := [sample_challenge] |}.

(** Identifiers for the seeding runs: the [i]-th is [i] strokes. *)
Fixpoint tally (i : nat) : string :=
  match i with
  | O => ""
  | S i' => String.append "i" (tally i')
  end.

Definition sample_clock (i : nat) : datetime := Z.of_nat i.

(** A random source that always draws the upper bound. *)
Definition other_randint (lo hi : Z) : Z := hi.

Definition second_item : MenuItem :=
  {| id := "item-2"; category := "Falooda"; name := "Royal Falooda"; price := 90%float;
     description := None; is_special := false;
     available := false; image_url := None; created_at := 5 |}.

Definition two_item_store : Db :=
  {| menu_items := [sample_item; second_item]; otp_verifications := [sample_challenge] |}.

(** A catalogue of exactly 1000 items. *)
Definition full_catalogue : Db :=
  {| menu_items := repeat sample_item 1000; otp_verifications := [] |}.

Definition plain_create : MenuItemCreate :=
  {| new_category := "Momos"; new_name := "Veg Momos"; new_price := 60%float;
     new_description := Some "Steamed"; new_is_special := Some false;
     new_available := Some true; new_image_url := Some "" |}.

(** * Properties *)

(** ** Facts on the document store *)

Section StoreFacts.
Context {D : Type}.
Variable p : D -> bool.

Lemma find_one_none (c : list D) :
  (forall x, In x c -> p x = false) -> Collection.find_one p c = None.
Proof.
  induction c as [|d c IH]; intros Hall; simpl; [reflexivity|].
  rewrite (Hall d (or_introl eq_refl)).
  apply IH. intros x Hx. apply Hall. now right.
Qed.

Lemma find_one_at (before after : list D) (d : D) :
  (forall x, In x before -> p x = false) -> p d = true ->
  Collection.find_one p (before ++ d :: after) = Some d.
Proof.
  induction before as [|b before IH]; intros Hall Hd; simpl.
  - now rewrite Hd.
  - rewrite (Hall b (or_introl eq_refl)).
    apply IH; [|exact Hd]. intros x Hx. apply Hall. now right.
Qed.



Lemma update_one_at (patch : D -> D) (before after : list D) (d : D) :
  (forall x, In x before -> p x = false) -> p d = true ->
  Collection.update_one p patch (before ++ d :: after) = before ++ patch d :: after.
Proof.
  induction before as [|b before IH]; intros Hall Hd; simpl.
  - now rewrite Hd.
  - rewrite (Hall b (or_introl eq_refl)). f_equal.
    apply IH; [|exact Hd]. intros x Hx. apply Hall. now right.
Qed.


Lemma delete_one_at (before after : list D) (d : D) :
  (forall x, In x before -> p x = false) -> p d = true ->
  Collection.delete_one p (before ++ d :: after) = before ++ after.
Proof.
  induction before as [|b before IH]; intros Hall Hd; simpl.
  - now rewrite Hd.
  - rewrite (Hall b (or_introl eq_refl)). f_equal.
    apply IH; [|exact Hd]. intros x Hx. apply Hall. now right.
Qed.


Lemma count_app (c1 c2 : list D) :
  Collection.count p (c1 ++ c2) = (Collection.count p c1 + Collection.count p c2)%nat.
Proof.
  unfold Collection.count. now rewrite filter_app, length_app.
Qed.

Lemma count_zero_none (c : list D) :
  Collection.count p c = 0%nat -> forall x, In x c -> p x = false.
Proof.
  unfold Collection.count.
  induction c as [|d c IH]; simpl; intros Hc x Hx; [contradiction|].
  destruct (p d) eqn:Hd; simpl in Hc; [discriminate|].
  destruct Hx as [<-|Hx]; [exact Hd | now apply IH].
Qed.
End StoreFacts.

Lemma db_eta (db : Db) :
  {| menu_items := menu_items db; otp_verifications := otp_verifications db |} = db.
Proof. destruct db; reflexivity. Qed.

Lemma by_id_true (item_id : string) (d : MenuItem) :
  by_id item_id d = true <-> id d = item_id.
Proof. unfold by_id. apply String.eqb_eq. Qed.

Lemma by_id_false (item_id : string) (d : MenuItem) :
  by_id item_id d = false <-> id d <> item_id.
Proof. unfold by_id. apply String.eqb_neq. Qed.

Lemma by_email_true (e : string) (d : OTPDoc) :
  by_email e d = true <-> otp_email d = e.
Proof. unfold by_email. apply String.eqb_eq. Qed.

Lemma by_email_false (e : string) (d : OTPDoc) :
  by_email e d = false <-> otp_email d <> e.
Proof. unfold by_email. apply String.eqb_neq. Qed.

(** ** Updating and toggling menu items *)

Ltac run_handler :=
  unfold bind, ret, raise, lift, with_menu_items, with_otp_verifications,
    keep, unit_of; cbn beta iota.

Lemma dollar_set_update_data (item : MenuItemUpdate) (d : MenuItem) :
  let d' := dollar_set (update_data_of item) d in
  id d' = id d /\
  created_at d' = created_at d /\
  category d' = provided_or (upd_category item) (category d) /\
  name d' = provided_or (upd_name item) (name d) /\
  price d' = provided_or (upd_price item) (price d) /\
  description d' = provided_or (option_map Some (upd_description item)) (description d) /\
  is_special d' = provided_or (upd_is_special item) (is_special d) /\
  available d' = provided_or (upd_available item) (available d) /\
  image_url d' = provided_or (option_map Some (upd_image_url item)) (image_url d).
Proof.
  destruct item as [c n pr de sp av im].
  destruct c, n, pr, de, sp, av, im; cbn; repeat split; reflexivity.
Qed.

Lemma update_menu_item_unknown (item_id admin_email : string)
    (item : MenuItemUpdate) (db : Db) :
  (forall x, In x (menu_items db) -> id x <> item_id) ->
  update_menu_item item_id item admin_email db =
    (Raise (HTTPException 404 "Menu item not found"), db).
Proof.
  intros Hno. unfold update_menu_item. run_handler.
  rewrite find_one_none by (intros x Hx; apply by_id_false; now apply Hno).
  now rewrite db_eta.
Qed.

Lemma update_menu_item_present (item_id admin_email : string)
    (item : MenuItemUpdate) (db : Db) (before after : list MenuItem) (d : MenuItem) :
  menu_items db = before ++ d :: after ->
  id d = item_id ->
  (forall x, In x before -> id x <> item_id) ->
  update_menu_item item_id item admin_email db =
    (Ok (dollar_set (update_data_of item) d),
     {| menu_items := before ++ dollar_set (update_data_of item) d :: after;
        otp_verifications := otp_verifications db |}).
Proof.
  intros Hitems Hid Hbefore.
  assert (Hb : forall x, In x before -> by_id item_id x = false)
    by (intros x Hx; apply by_id_false; now apply Hbefore).
  assert (Hd : by_id item_id d = true) by now apply by_id_true.
  assert (Hd' : by_id item_id (dollar_set (update_data_of item) d) = true).
  { apply by_id_true.
    destruct (dollar_set_update_data item d) as [-> _]. exact Hid. }
  unfold update_menu_item. run_handler.
  rewrite Hitems, (find_one_at _ _ _ _ Hb Hd).
  destruct (update_data_of item) as [|f fs] eqn:Hdata; cbn [is_empty].
  - cbn. rewrite (find_one_at _ _ _ _ Hb Hd). reflexivity.
  - cbn [menu_items otp_verifications].
    rewrite (update_one_at _ _ _ _ _ Hb Hd), (find_one_at _ _ _ _ Hb Hd').
    reflexivity.
Qed.

Lemma set_is_special_fields (v : bool) (d : MenuItem) :
  set_is_special v d =
    mkMenuItem (id d) (category d) (name d) (price d) (description d) v
      (available d) (image_url d) (created_at d).
Proof. reflexivity. Qed.

Lemma set_available_fields (v : bool) (d : MenuItem) :
  set_available v d =
    mkMenuItem (id d) (category d) (name d) (price d) (description d)
      (is_special d) v (image_url d) (created_at d).
Proof. reflexivity. Qed.

Lemma toggle_special_unknown (item_id admin_email : string) (db : Db) :
  (forall x, In x (menu_items db) -> id x <> item_id) ->
  toggle_special item_id admin_email db =
    (Raise (HTTPException 404 "Menu item not found"), db).
Proof.
  intros Hno. unfold toggle_special. run_handler.
  rewrite find_one_none by (intros x Hx; apply by_id_false; now apply Hno).
  now rewrite db_eta.
Qed.

Lemma toggle_available_unknown (item_id admin_email : string) (db : Db) :
  (forall x, In x (menu_items db) -> id x <> item_id) ->
  toggle_available item_id admin_email db =
    (Raise (HTTPException 404 "Menu item not found"), db).
Proof.
  intros Hno. unfold toggle_available. run_handler.
  rewrite find_one_none by (intros x Hx; apply by_id_false; now apply Hno).
  now rewrite db_eta.
Qed.

Lemma toggle_special_present (item_id admin_email : string) (otps : list OTPDoc)
    (before after : list MenuItem) (d : MenuItem) :
  id d = item_id ->
  (forall x, In x before -> id x <> item_id) ->
  toggle_special item_id admin_email (mkDb (before ++ d :: after) otps) =
    (Ok (negb (is_special d)),
     mkDb (before ++ set_is_special (negb (is_special d)) d :: after) otps).
Proof.
  intros Hid Hbefore.
  assert (Hb : forall x, In x before -> by_id item_id x = false)
    by (intros x Hx; apply by_id_false; now apply Hbefore).
  assert (Hd : by_id item_id d = true) by now apply by_id_true.
  unfold toggle_special. run_handler. cbn [menu_items otp_verifications].
  rewrite (find_one_at _ _ _ _ Hb Hd). cbn [menu_items otp_verifications].
  now rewrite (update_one_at _ _ _ _ _ Hb Hd).
Qed.

Lemma toggle_available_present (item_id admin_email : string) (otps : list OTPDoc)
    (before after : list MenuItem) (d : MenuItem) :
  id d = item_id ->
  (forall x, In x before -> id x <> item_id) ->
  toggle_available item_id admin_email (mkDb (before ++ d :: after) otps) =
    (Ok (negb (available d)),
     mkDb (before ++ set_available (negb (available d)) d :: after) otps).
Proof.
  intros Hid Hbefore.
  assert (Hb : forall x, In x before -> by_id item_id x = false)
    by (intros x Hx; apply by_id_false; now apply Hbefore).
  assert (Hd : by_id item_id d = true) by now apply by_id_true.
  unfold toggle_available. run_handler. cbn [menu_items otp_verifications].
  rewrite (find_one_at _ _ _ _ Hb Hd). cbn [menu_items otp_verifications].
  now rewrite (update_one_at _ _ _ _ _ Hb Hd).
Qed.

(** C7.  [update_menu_item] on an id that no stored item carries answers 404
    ("Menu item not found") and leaves the store as it was.  On an id that is
    present it rewrites that item (the first one carrying the id) in place:
    every field given in the partial payload takes the given value, every
    field left out keeps its prior value, [id] and [created_at] are never
    touched, no other document changes, and the updated item is the
    answer. *)
Theorem update_menu_item_partial (item_id admin_email : string)
    (item : MenuItemUpdate) (db : Db) :
  ((forall x, In x (menu_items db) -> id x <> item_id) ->
   update_menu_item item_id item admin_email db =
     (Raise (HTTPException 404 "Menu item not found"), db)) /\
  (forall before d after,
     menu_items db = before ++ d :: after ->
     id d = item_id ->
     (forall x, In x before -> id x <> item_id) ->
     exists d',
       update_menu_item item_id item admin_email db =
         (Ok d', {| menu_items := before ++ d' :: after;
                    otp_verifications := otp_verifications db |}) /\
       id d' = id d /\
       created_at d' = created_at d /\
       category d' = provided_or (upd_category item) (category d) /\
       name d' = provided_or (upd_name item) (name d) /\
       price d' = provided_or (upd_price item) (price d) /\
       description d' =
         provided_or (option_map Some (upd_description item)) (description d) /\
       is_special d' = provided_or (upd_is_special item) (is_special d) /\
       available d' = provided_or (upd_available item) (available d) /\
       image_url d' =
         provided_or (option_map Some (upd_image_url item)) (image_url d)).
Proof.
  split.
  - apply update_menu_item_unknown.
  - intros before d after Hitems Hid Hbefore.
    exists (dollar_set (update_data_of item) d). split.
    + now apply update_menu_item_present.
    + apply dollar_set_update_data.
Qed.

(** C8.  For a stored item, [toggle_special] negates [is_special] and
    [toggle_available] negates [available]; every other field of the item and
    every other document stay as they were, and the answer is the new value
    of the flag.  Running the same toggle a second time gives back the
    original store.  On an id that no stored item carries both answer 404 and
    change nothing. *)
Theorem toggles_flip_one_flag (item_id admin_email : string) :
  (forall db,
     (forall x, In x (menu_items db) -> id x <> item_id) ->
     toggle_special item_id admin_email db =
       (Raise (HTTPException 404 "Menu item not found"), db) /\
     toggle_available item_id admin_email db =
       (Raise (HTTPException 404 "Menu item not found"), db)) /\
  (forall otps before d after,
     id d = item_id ->
     (forall x, In x before -> id x <> item_id) ->
     let db := mkDb (before ++ d :: after) otps in
     let d_special :=
       mkMenuItem (id d) (category d) (name d) (price d) (description d)
         (negb (is_special d)) (available d) (image_url d) (created_at d) in
     let d_available :=
       mkMenuItem (id d) (category d) (name d) (price d) (description d)
         (is_special d) (negb (available d)) (image_url d) (created_at d) in
     toggle_special item_id admin_email db =
       (Ok (negb (is_special d)), mkDb (before ++ d_special :: after) otps) /\
     toggle_available item_id admin_email db =
       (Ok (negb (available d)), mkDb (before ++ d_available :: after) otps) /\
     toggle_special item_id admin_email
       (snd (toggle_special item_id admin_email db)) = (Ok (is_special d), db) /\
     toggle_available item_id admin_email
       (snd (toggle_available item_id admin_email db)) = (Ok (available d), db)).
Proof.
  split.
  - intros db Hno. split.
    + now apply toggle_special_unknown.
    + now apply toggle_available_unknown.
  - intros otps before d after Hid Hbefore db d_special d_available.
    assert (Hs : toggle_special item_id admin_email db =
                 (Ok (negb (is_special d)), mkDb (before ++ d_special :: after) otps))
      by now apply toggle_special_present.
    assert (Ha : toggle_available item_id admin_email db =
                 (Ok (negb (available d)), mkDb (before ++ d_available :: after) otps))
      by now apply toggle_available_present.
    repeat split; [exact Hs | exact Ha | |].
    + rewrite Hs. cbn [snd].
      rewrite (toggle_special_present item_id admin_email otps before after d_special)
        by assumption.
      subst d_special db. cbn [is_special]. rewrite set_is_special_fields.
      cbn. rewrite negb_involutive. now destruct d.
    + rewrite Ha. cbn [snd].
      rewrite (toggle_available_present item_id admin_email otps before after d_available)
        by assumption.
      subst d_available db. cbn [available]. rewrite set_available_fields.
      cbn. rewrite negb_involutive. now destruct d.
Qed.

(** ** Creating menu items *)

Lemma create_menu_item_accepts (uuid4 admin_email : string) (now : datetime)
    (item : MenuItemCreate) (db : Db) (s a : bool) :
  new_is_special item = Some s ->
  new_available item = Some a ->
  create_menu_item uuid4 now item admin_email db =
    (Ok (mkMenuItem uuid4 (new_category item) (new_name item) (new_price item)
           (new_description item) s a (new_image_url item) now),
     {| menu_items :=
          menu_items db ++
          [mkMenuItem uuid4 (new_category item) (new_name item) (new_price item)
             (new_description item) s a (new_image_url item) now];
        otp_verifications := otp_verifications db |}).
Proof.
  intros Hs Ha. unfold create_menu_item, MenuItem_of_create.
  rewrite Hs, Ha. reflexivity.
Qed.

(** C1 (amended).  Neither route checks the values it is given.  For every
    create input whose [is_special] and [available] flags are not null,
    whatever its name, category and price, [create_menu_item] succeeds,
    appends exactly one item carrying those values (with the fresh id and the
    clock reading) and answers with it.  For every partial payload,
    [update_menu_item] on a present id succeeds and stores the given name,
    category and price as they are. *)
Theorem create_and_update_accept_any_values (admin_email : string) (db : Db) :
  (forall uuid4 now item s a,
     new_is_special item = Some s ->
     new_available item = Some a ->
     exists m,
       create_menu_item uuid4 now item admin_email db =
         (Ok m, {| menu_items := menu_items db ++ [m];
                   otp_verifications := otp_verifications db |}) /\
       id m = uuid4 /\ created_at m = now /\
       category m = new_category item /\
       name m = new_name item /\
       price m = new_price item /\
       description m = new_description item /\
       is_special m = s /\ available m = a /\
       image_url m = new_image_url item) /\
  (forall item_id item before d after,
     menu_items db = before ++ d :: after ->
     id d = item_id ->
     (forall x, In x before -> id x <> item_id) ->
     exists d',
       update_menu_item item_id item admin_email db =
         (Ok d', {| menu_items := before ++ d' :: after;
                    otp_verifications := otp_verifications db |}) /\
       category d' = provided_or (upd_category item) (category d) /\
       name d' = provided_or (upd_name item) (name d) /\
       price d' = provided_or (upd_price item) (price d)).
Proof.
  split.
  - intros uuid4 now item s a Hs Ha.
    exists (mkMenuItem uuid4 (new_category item) (new_name item) (new_price item)
              (new_description item) s a (new_image_url item) now).
    split; [now apply create_menu_item_accepts|].
    cbn. repeat split; reflexivity.
  - intros item_id item before d after Hitems Hid Hbefore.
    exists (dollar_set (update_data_of item) d). split.
    + now apply update_menu_item_present.
    + destruct (dollar_set_update_data item d) as (_ & _ & Hc & Hn & Hp & _).
      now repeat split.
Qed.

(** ** Listing routes *)

Section Listing.
Context {D : Type}.

Lemma find_to_list_length (p : D -> bool) (n : nat) (c : list D) :
  List.length (Collection.find_to_list p n c) = Nat.min n (Collection.count p c).
Proof.
  unfold Collection.find_to_list, Collection.count.
  apply length_firstn.
Qed.

Lemma filter_all (c : list D) : filter (fun _ => true) c = c.
Proof.
  induction c as [|d c IH]; simpl; [reflexivity | now rewrite IH].
Qed.

Lemma find_to_list_truncates (p : D -> bool) (n : nat) (c : list D) :
  (n < Collection.count p c)%nat ->
  List.length (Collection.find_to_list p n c) = n /\
  Collection.find_to_list p n c <> filter p c.
Proof.
  intros Hlt.
  assert (Hlen : List.length (Collection.find_to_list p n c) = n).
  { rewrite find_to_list_length. lia. }
  split; [exact Hlen|].
  intros Heq. rewrite Heq in Hlen.
  unfold Collection.count in Hlt. lia.
Qed.
End Listing.

(** C10.  The three listing routes ([get_menu], [get_specials] and the admin
    [get_all_menu_items]) leave the store as it is and answer with the first
    1000 documents matching their filter, hence with at most 1000 items; when
    more than 1000 documents match, exactly 1000 are returned and the answer
    is not the whole set of matches, so the admin listing of a catalogue of
    more than 1000 entries is not the whole catalogue. *)
Theorem listing_capped_at_1000 (db : Db) (admin_email : string) :
  let specials := fun d => is_special d && available d in
  exists l_menu l_specials l_all,
    get_menu db = (Ok l_menu, db) /\
    get_specials db = (Ok l_specials, db) /\
    get_all_menu_items admin_email db = (Ok l_all, db) /\
    l_menu = firstn 1000 (filter available (menu_items db)) /\
    l_specials = firstn 1000 (filter specials (menu_items db)) /\
    l_all = firstn 1000 (menu_items db) /\
    (List.length l_menu <= 1000)%nat /\
    (List.length l_specials <= 1000)%nat /\
    (List.length l_all <= 1000)%nat /\
    ((1000 < List.length (filter available (menu_items db)))%nat ->
       List.length l_menu = 1000%nat /\ l_menu <> filter available (menu_items db)) /\
    ((1000 < List.length (filter specials (menu_items db)))%nat ->
       List.length l_specials = 1000%nat /\ l_specials <> filter specials (menu_items db)) /\
    ((1000 < List.length (menu_items db))%nat ->
       List.length l_all = 1000%nat /\ l_all <> menu_items db).
Proof.
  intros specials.
  assert (Hdb : {| menu_items := keep (menu_items db);
                   otp_verifications := otp_verifications db |} = db)
    by (destruct db; reflexivity).
  exists (Collection.find_to_list available 1000 (menu_items db)),
         (Collection.find_to_list specials 1000 (menu_items db)),
         (Collection.find_to_list (fun _ => true) 1000 (menu_items db)).
  repeat split.
  - unfold get_menu, with_menu_items. now rewrite Hdb.
  - unfold get_specials, with_menu_items. now rewrite Hdb.
  - unfold get_all_menu_items, with_menu_items. now rewrite Hdb.
  - unfold Collection.find_to_list. now rewrite filter_all.
  - rewrite find_to_list_length. lia.
  - rewrite find_to_list_length. lia.
  - rewrite find_to_list_length. lia.
  - apply find_to_list_truncates. exact H.
  - apply find_to_list_truncates. exact H.
  - apply find_to_list_truncates. exact H.
  - apply find_to_list_truncates. exact H.
  - rewrite find_to_list_length.
    unfold Collection.count. rewrite filter_all. lia.
  - intros Heq.
    assert (Hlen : List.length (Collection.find_to_list (fun _ : MenuItem => true) 1000 (menu_items db)) = 1000%nat).
    { rewrite find_to_list_length. unfold Collection.count. rewrite filter_all. lia. }
    rewrite Heq in Hlen. lia.
Qed.

(** ** One-time passwords *)

Section StoreCounting.
Context {D : Type}.
Variable p : D -> bool.

Lemma filter_delete_many_insert (c : list D) (d : D) :
  p d = true ->
  filter p (Collection.insert_one d (Collection.delete_many p c)) = [d].
Proof.
  intros Hd. unfold Collection.insert_one, Collection.delete_many.
  rewrite filter_app. cbn. rewrite Hd.
  replace (filter p (filter (fun x => negb (p x)) c)) with (@nil D); [reflexivity|].
  induction c as [|a c IH]; cbn; [reflexivity|].
  destruct (p a) eqn:Ha; cbn; [exact IH|]. now rewrite Ha.
Qed.


Lemma single_split (c : list D) (d : D) :
  (Collection.count p c <= 1)%nat -> In d c -> p d = true ->
  exists before after,
    c = before ++ d :: after /\
    (forall x, In x before -> p x = false) /\
    (forall x, In x after -> p x = false).
Proof.
  intros Hcount Hin Hd.
  destruct (in_split _ _ Hin) as (before & after & ->).
  exists before, after. split; [reflexivity|].
  rewrite count_app in Hcount.
  change (d :: after) with ([d] ++ after) in Hcount.
  rewrite count_app in Hcount.
  assert (H1 : Collection.count p [d] = 1%nat)
    by (unfold Collection.count; cbn; now rewrite Hd).
  split; apply count_zero_none; lia.
Qed.

Lemma count_none (c : list D) :
  (forall x, In x c -> p x = false) -> Collection.count p c = 0%nat.
Proof.
  unfold Collection.count.
  induction c as [|a c IH]; intros Hall; cbn; [reflexivity|].
  rewrite (Hall a (or_introl eq_refl)).
  apply IH. intros x Hx. apply Hall. now right.
Qed.

Lemma count_delete_one (c : list D) :
  Collection.count p (Collection.delete_one p c) = Nat.pred (Collection.count p c).
Proof.
  unfold Collection.count.
  induction c as [|a c IH]; cbn; [reflexivity|].
  destruct (p a) eqn:Ha; cbn; [reflexivity|].
  now rewrite Ha.
Qed.
End StoreCounting.

Section AuthProperties.
Variable ADMIN_EMAIL : string.
Variable JWT_SECRET : string.
Variable HS256 : string -> jwt_claims -> string.

Lemma send_otp_other_email randint now_created now_expiry sendgrid_ok request db :
  send_email request <> ADMIN_EMAIL ->
  send_otp ADMIN_EMAIL randint now_created now_expiry sendgrid_ok request db =
    (Raise (HTTPException 403 "Email not authorized"), db).
Proof.
  intros Hne. unfold send_otp.
  apply String.eqb_neq in Hne. now rewrite Hne.
Qed.

Lemma verify_otp_other_email now now_token request db :
  verify_email request <> ADMIN_EMAIL ->
  verify_otp ADMIN_EMAIL JWT_SECRET HS256 now now_token request db =
    (Raise (HTTPException 403 "Email not authorized"), db).
Proof.
  intros Hne. unfold verify_otp.
  apply String.eqb_neq in Hne. now rewrite Hne.
Qed.

Lemma send_otp_admin randint now_created now_expiry sendgrid_ok db :
  send_otp ADMIN_EMAIL randint now_created now_expiry sendgrid_ok
    (mkSendOTPRequest ADMIN_EMAIL) db =
    ((if sendgrid_ok then Ok ("OTP sent successfully", ADMIN_EMAIL)
      else Raise (HTTPException 500 "Failed to send OTP email")),
     {| menu_items := menu_items db;
        otp_verifications :=
          Collection.insert_one
            (new_otp_doc ADMIN_EMAIL (generate_otp randint) now_created now_expiry)
            (Collection.delete_many (by_email ADMIN_EMAIL) (otp_verifications db)) |}).
Proof.
  unfold send_otp. cbn [send_email]. rewrite String.eqb_refl. cbn [negb].
  run_handler. unfold send_otp_email. now destruct sendgrid_ok.
Qed.

Lemma verify_otp_no_challenge now now_token code db :
  (forall x, In x (otp_verifications db) -> otp_email x <> ADMIN_EMAIL) ->
  verify_otp ADMIN_EMAIL JWT_SECRET HS256 now now_token
    (mkVerifyOTPRequest ADMIN_EMAIL code) db =
    (Raise (HTTPException 404 "OTP not found or expired"), db).
Proof.
  intros Hno. unfold verify_otp. cbn [verify_email].
  rewrite String.eqb_refl. cbn [negb]. run_handler.
  rewrite find_one_none by (intros x Hx; apply by_email_false; now apply Hno).
  now rewrite db_eta.
Qed.

Section WithChallenge.
Variables (items : list MenuItem) (before after : list OTPDoc) (doc : OTPDoc).
Hypothesis doc_email : otp_email doc = ADMIN_EMAIL.
Hypothesis doc_first : forall x, In x before -> otp_email x <> ADMIN_EMAIL.

Lemma verify_otp_expired now now_token code :
  expires_at doc < now ->
  verify_otp ADMIN_EMAIL JWT_SECRET HS256 now now_token
    (mkVerifyOTPRequest ADMIN_EMAIL code) (mkDb items (before ++ doc :: after)) =
    (Raise (HTTPException 400 "OTP has expired"), mkDb items (before ++ after)).
Proof.
  intros Hlate.
  assert (Hb : forall x, In x before -> by_email ADMIN_EMAIL x = false)
    by (intros x Hx; apply by_email_false; now apply doc_first).
  assert (Hd : by_email ADMIN_EMAIL doc = true) by now apply by_email_true.
  unfold verify_otp. cbn [verify_email verify_otp_code].
  rewrite String.eqb_refl. cbn [negb]. run_handler.
  cbn [menu_items otp_verifications].
  rewrite (find_one_at _ _ _ _ Hb Hd).
  replace (now >? expires_at doc) with true by (symmetry; apply Z.gtb_lt; lia).
  cbn [menu_items otp_verifications].
  now rewrite (delete_one_at _ _ _ _ Hb Hd).
Qed.

Lemma verify_otp_wrong_code now now_token code :
  now <= expires_at doc ->
  code <> otp doc ->
  verify_otp ADMIN_EMAIL JWT_SECRET HS256 now now_token
    (mkVerifyOTPRequest ADMIN_EMAIL code) (mkDb items (before ++ doc :: after)) =
    (Raise (HTTPException 400 "Invalid OTP"), mkDb items (before ++ doc :: after)).
Proof.
  intros Hin Hcode.
  assert (Hb : forall x, In x before -> by_email ADMIN_EMAIL x = false)
    by (intros x Hx; apply by_email_false; now apply doc_first).
  assert (Hd : by_email ADMIN_EMAIL doc = true) by now apply by_email_true.
  unfold verify_otp. cbn [verify_email verify_otp_code].
  rewrite String.eqb_refl. cbn [negb]. run_handler.
  cbn [menu_items otp_verifications].
  rewrite (find_one_at _ _ _ _ Hb Hd).
  replace (now >? expires_at doc) with false
    by (symmetry; rewrite Z.gtb_ltb; apply Z.ltb_ge; lia).
  replace (String.eqb (otp doc) code) with false
    by (symmetry; apply String.eqb_neq; congruence).
  reflexivity.
Qed.

Lemma verify_otp_right_code now now_token :
  now <= expires_at doc ->
  verify_otp ADMIN_EMAIL JWT_SECRET HS256 now now_token
    (mkVerifyOTPRequest ADMIN_EMAIL (otp doc)) (mkDb items (before ++ doc :: after)) =
    (Ok {| token := create_jwt_token JWT_SECRET HS256 now_token ADMIN_EMAIL;
           email := ADMIN_EMAIL |},
     mkDb items (before ++ after)).
Proof.
  intros Hin.
  assert (Hb : forall x, In x before -> by_email ADMIN_EMAIL x = false)
    by (intros x Hx; apply by_email_false; now apply doc_first).
  assert (Hd : by_email ADMIN_EMAIL doc = true) by now apply by_email_true.
  unfold verify_otp. cbn [verify_email verify_otp_code].
  rewrite String.eqb_refl. cbn [negb]. run_handler.
  cbn [menu_items otp_verifications].
  rewrite (find_one_at _ _ _ _ Hb Hd).
  replace (now >? expires_at doc) with false
    by (symmetry; rewrite Z.gtb_ltb; apply Z.ltb_ge; lia).
  rewrite String.eqb_refl. cbn [negb menu_items otp_verifications].
  now rewrite (delete_one_at _ _ _ _ Hb Hd).
Qed.
End WithChallenge.

Lemma delete_many_none (c : list OTPDoc) (x : OTPDoc) :
  In x (Collection.delete_many (by_email ADMIN_EMAIL) c) -> otp_email x <> ADMIN_EMAIL.
Proof.
  unfold Collection.delete_many. intros Hx.
  apply filter_In in Hx. destruct Hx as [_ Hx].
  apply by_email_false. now apply negb_true_iff.
Qed.

Lemma verify_otp_store now now_token request db :
  let db' := snd (verify_otp ADMIN_EMAIL JWT_SECRET HS256 now now_token request db) in
  menu_items db' = menu_items db /\
  (otp_verifications db' = otp_verifications db \/
   otp_verifications db' =
     Collection.delete_one (by_email ADMIN_EMAIL) (otp_verifications db)).
Proof.
  unfold verify_otp.
  destruct (String.eqb (verify_email request) ADMIN_EMAIL) eqn:He; cbn [negb].
  - apply String.eqb_eq in He. rewrite He. run_handler.
    destruct (Collection.find_one _ _) as [doc|]; cbn; [|now split; [|left]].
    destruct (now >? expires_at doc); cbn; [now split; [|right]|].
    destruct (String.eqb (otp doc) (verify_otp_code request)); cbn.
    + now split; [|right].
    + now split; [|left].
  - cbn. now split; [|left].
Qed.

(** Every store the authentication routes can produce holds at most one
    challenge for the administrator. *)
Lemma reachable_single_challenge (db : Db) :
  reachable ADMIN_EMAIL JWT_SECRET HS256 db ->
  (Collection.count (by_email ADMIN_EMAIL) (otp_verifications db) <= 1)%nat.
Proof.
  induction 1 as [items | db randint c e ok request _ IH | db now nt request _ IH].
  - cbn. lia.
  - destruct (String.eqb_spec (send_email request) ADMIN_EMAIL) as [Heq|Hne].
    + destruct request as [em]. cbn in Heq. subst em.
      rewrite send_otp_admin. cbn [snd otp_verifications].
      unfold Collection.count.
      rewrite filter_delete_many_insert by now apply by_email_true.
      cbn. lia.
    + now rewrite send_otp_other_email.
  - destruct (verify_otp_store now nt request db) as [_ [-> | ->]]; [exact IH|].
    rewrite count_delete_one. lia.
Qed.

(** C2.  With a challenge stored for the administrator (the one [find_one]
    returns: no document before it carries that email) that has not expired,
    [verify_otp] with a code other than the stored one answers 400
    ("Invalid OTP") and leaves the store exactly as it was; verifying again
    with the stored code, at any time still within the expiry window, then
    succeeds with a session token. *)
Theorem wrong_code_keeps_challenge (items : list MenuItem)
    (before after : list OTPDoc) (doc : OTPDoc)
    (now now_token later later_token : datetime) (code : string) :
  otp_email doc = ADMIN_EMAIL ->
  (forall x, In x before -> otp_email x <> ADMIN_EMAIL) ->
  now <= expires_at doc ->
  code <> otp doc ->
  later <= expires_at doc ->
  let db := mkDb items (before ++ doc :: after) in
  let wrong :=
    verify_otp ADMIN_EMAIL JWT_SECRET HS256 now now_token
      (mkVerifyOTPRequest ADMIN_EMAIL code) db in
  wrong = (Raise (HTTPException 400 "Invalid OTP"), db) /\
  verify_otp ADMIN_EMAIL JWT_SECRET HS256 later later_token
    (mkVerifyOTPRequest ADMIN_EMAIL (otp doc)) (snd wrong) =
    (Ok {| token := create_jwt_token JWT_SECRET HS256 later_token ADMIN_EMAIL;
           email := ADMIN_EMAIL |},
     mkDb items (before ++ after)).
Proof.
  intros Hemail Hfirst Hnow Hcode Hlater db wrong.
  assert (Hwrong : wrong = (Raise (HTTPException 400 "Invalid OTP"), db))
    by now apply verify_otp_wrong_code.
  split; [exact Hwrong|].
  rewrite Hwrong. cbn [snd]. now apply verify_otp_right_code.
Qed.

(** C3.  In a store holding at most one challenge for the administrator (as
    every store produced by the routes does), a successful verification
    (stored code, not expired) and a verification attempt after the expiry
    (answered 400 "OTP has expired", whatever the code) both delete the
    challenge: no challenge for the administrator remains, and every later
    [verify_otp] for that email answers 404. *)
Theorem verify_consumes_challenge (db : Db) (doc : OTPDoc)
    (now now_token : datetime) (code : string) :
  (Collection.count (by_email ADMIN_EMAIL) (otp_verifications db) <= 1)%nat ->
  In doc (otp_verifications db) ->
  otp_email doc = ADMIN_EMAIL ->
  let run :=
    verify_otp ADMIN_EMAIL JWT_SECRET HS256 now now_token
      (mkVerifyOTPRequest ADMIN_EMAIL code) db in
  let consumed :=
    Collection.count (by_email ADMIN_EMAIL) (otp_verifications (snd run)) = 0%nat /\
    forall later later_token later_code,
      verify_otp ADMIN_EMAIL JWT_SECRET HS256 later later_token
        (mkVerifyOTPRequest ADMIN_EMAIL later_code) (snd run) =
        (Raise (HTTPException 404 "OTP not found or expired"), snd run) in
  (now <= expires_at doc -> code = otp doc ->
   fst run = Ok {| token := create_jwt_token JWT_SECRET HS256 now_token ADMIN_EMAIL;
                   email := ADMIN_EMAIL |} /\
   consumed) /\
  (expires_at doc < now ->
   fst run = Raise (HTTPException 400 "OTP has expired") /\
   consumed).
Proof.
  intros Hsingle Hin Hemail run consumed.
  destruct (single_split _ _ _ Hsingle Hin (proj2 (by_email_true _ _) Hemail))
    as (before & after & Hsplit & Hbefore & Hafter).
  assert (Hb : forall x, In x before -> otp_email x <> ADMIN_EMAIL)
    by (intros x Hx; apply by_email_false; now apply Hbefore).
  assert (Hgone : forall x, In x (before ++ after) -> otp_email x <> ADMIN_EMAIL).
  { intros x Hx. apply by_email_false.
    apply in_app_or in Hx. destruct Hx; [now apply Hbefore | now apply Hafter]. }
  assert (Hdb : db = mkDb (menu_items db) (before ++ doc :: after))
    by (destruct db; cbn in *; now subst).
  assert (Hafterwards :
    forall r, run = (r, mkDb (menu_items db) (before ++ after)) -> consumed).
  { intros r Hrun. subst consumed. rewrite Hrun. cbn [snd otp_verifications]. split.
    - apply count_none. intros x Hx. apply by_email_false. now apply Hgone.
    - intros later later_token later_code.
      now apply verify_otp_no_challenge. }
  split.
  - intros Hle Heq.
    assert (Hrun : run = (Ok {| token := create_jwt_token JWT_SECRET HS256 now_token ADMIN_EMAIL;
                                email := ADMIN_EMAIL |},
                          mkDb (menu_items db) (before ++ after))).
    { subst run. rewrite Hdb at 1. rewrite Heq.
      now apply verify_otp_right_code. }
    split; [now rewrite Hrun | now apply (Hafterwards _ Hrun)].
  - intros Hgt.
    assert (Hrun : run = (Raise (HTTPException 400 "OTP has expired"),
                          mkDb (menu_items db) (before ++ after))).
    { subst run. rewrite Hdb at 1. now apply verify_otp_expired. }
    split; [now rewrite Hrun | now apply (Hafterwards _ Hrun)].
Qed.

(** C4 (amended).  Whatever the store held before, after a successful
    [send_otp] for the administrator exactly one challenge for that email is
    stored, the one just created (the earlier ones having been deleted before
    the insert); a second successful [send_otp] again leaves exactly one, the
    newest.  Its [created_at] is the first clock reading of the request and
    its [expires_at] is the second clock reading plus 10 minutes, so the
    distance between the two is 10 minutes plus the time between the two
    readings. *)
Theorem send_otp_single_challenge (db : Db) (randint1 randint2 : Z -> Z -> Z)
    (created1 expiry1 created2 expiry2 : datetime) :
  let request := mkSendOTPRequest ADMIN_EMAIL in
  let first := send_otp ADMIN_EMAIL randint1 created1 expiry1 true request db in
  let second := send_otp ADMIN_EMAIL randint2 created2 expiry2 true request (snd first) in
  let doc1 := new_otp_doc ADMIN_EMAIL (generate_otp randint1) created1 expiry1 in
  let doc2 := new_otp_doc ADMIN_EMAIL (generate_otp randint2) created2 expiry2 in
  fst first = Ok ("OTP sent successfully", ADMIN_EMAIL) /\
  filter (by_email ADMIN_EMAIL) (otp_verifications (snd first)) = [doc1] /\
  Collection.count (by_email ADMIN_EMAIL) (otp_verifications (snd first)) = 1%nat /\
  fst second = Ok ("OTP sent successfully", ADMIN_EMAIL) /\
  filter (by_email ADMIN_EMAIL) (otp_verifications (snd second)) = [doc2] /\
  Collection.count (by_email ADMIN_EMAIL) (otp_verifications (snd second)) = 1%nat /\
  otp_created_at doc1 = created1 /\
  expires_at doc1 = expiry1 + 600000000 /\
  expires_at doc1 = otp_created_at doc1 + timedelta_minutes 10 + (expiry1 - created1).
Proof.
  intros request first second doc1 doc2.
  assert (Hadmin : forall r c e, by_email ADMIN_EMAIL (new_otp_doc ADMIN_EMAIL r c e) = true)
    by (intros; now apply by_email_true).
  subst second first request.
  rewrite !send_otp_admin. cbn [fst snd otp_verifications].
  unfold Collection.count.
  rewrite !filter_delete_many_insert by apply Hadmin.
  subst doc1 doc2. cbn [otp_created_at expires_at new_otp_doc List.length].
  unfold timedelta_minutes, microseconds_per_second.
  repeat split; lia.
Qed.

(** C5.  For an email other than the configured administrator's, [send_otp]
    and [verify_otp] answer 403 ("Email not authorized") whatever the store,
    the clock, the random draw and the submitted code are, and hand the store
    back as it was; the outcome is the same for any two stores, so no stored
    challenge is consulted. *)
Theorem other_emails_forbidden (other : string) :
  other <> ADMIN_EMAIL ->
  (forall randint now_created now_expiry sendgrid_ok db,
     send_otp ADMIN_EMAIL randint now_created now_expiry sendgrid_ok
       (mkSendOTPRequest other) db =
       (Raise (HTTPException 403 "Email not authorized"), db)) /\
  (forall now now_token code db,
     verify_otp ADMIN_EMAIL JWT_SECRET HS256 now now_token
       (mkVerifyOTPRequest other code) db =
       (Raise (HTTPException 403 "Email not authorized"), db)) /\
  (forall randint now_created now_expiry sendgrid_ok db db',
     fst (send_otp ADMIN_EMAIL randint now_created now_expiry sendgrid_ok
            (mkSendOTPRequest other) db) =
     fst (send_otp ADMIN_EMAIL randint now_created now_expiry sendgrid_ok
            (mkSendOTPRequest other) db')) /\
  (forall now now_token code db db',
     fst (verify_otp ADMIN_EMAIL JWT_SECRET HS256 now now_token
            (mkVerifyOTPRequest other code) db) =
     fst (verify_otp ADMIN_EMAIL JWT_SECRET HS256 now now_token
            (mkVerifyOTPRequest other code) db')).
Proof.
  intros Hother. repeat split; intros.
  - now apply send_otp_other_email.
  - now apply verify_otp_other_email.
  - now rewrite !send_otp_other_email.
  - now rewrite !verify_otp_other_email.
Qed.

(** C9.  When the e-mail dispatch of [send_otp] fails, the request is
    answered 500 ("Failed to send OTP email") and the store is the one a
    delivered request would have left: the new challenge is stored, and it is
    the only one for the administrator.  A later [verify_otp] with its code,
    within the expiry window, finds it and succeeds. *)
Theorem email_failure_keeps_challenge (db : Db) (randint : Z -> Z -> Z)
    (now_created now_expiry now now_token : datetime) :
  now <= now_expiry + timedelta_minutes 10 ->
  let request := mkSendOTPRequest ADMIN_EMAIL in
  let failed := send_otp ADMIN_EMAIL randint now_created now_expiry false request db in
  let doc := new_otp_doc ADMIN_EMAIL (generate_otp randint) now_created now_expiry in
  fst failed = Raise (HTTPException 500 "Failed to send OTP email") /\
  snd failed = snd (send_otp ADMIN_EMAIL randint now_created now_expiry true request db) /\
  In doc (otp_verifications (snd failed)) /\
  filter (by_email ADMIN_EMAIL) (otp_verifications (snd failed)) = [doc] /\
  fst (verify_otp ADMIN_EMAIL JWT_SECRET HS256 now now_token
         (mkVerifyOTPRequest ADMIN_EMAIL (generate_otp randint)) (snd failed)) =
    Ok {| token := create_jwt_token JWT_SECRET HS256 now_token ADMIN_EMAIL;
          email := ADMIN_EMAIL |}.
Proof.
  intros Hnow request failed doc.
  subst failed request. rewrite !send_otp_admin. cbn [fst snd otp_verifications].
  repeat split.
  - unfold Collection.insert_one. apply in_or_app. right. now left.
  - apply filter_delete_many_insert. now apply by_email_true.
  - unfold Collection.insert_one.
    change (generate_otp randint) with (otp doc) at 1.
    rewrite verify_otp_right_code; [reflexivity | reflexivity | | exact Hnow].
    intros x. apply delete_many_none.
Qed.

Lemma numeric_date_bounds (t : datetime) :
  t - microseconds_per_second < t / microseconds_per_second * microseconds_per_second <= t.
Proof.
  unfold microseconds_per_second.
  pose proof (Z.div_mod t 1000000 ltac:(lia)) as Hdm.
  pose proof (Z.mod_pos_bound t 1000000 ltac:(lia)) as Hb.
  lia.
Qed.

Lemma verify_jwt_token_bad_signature now claims signature :
  signature <> HS256 JWT_SECRET claims ->
  verify_jwt_token JWT_SECRET HS256 now (Signed claims signature) =
    Raise (HTTPException 401 "Invalid token").
Proof.
  intros Hsig. unfold verify_jwt_token, jwt_decode.
  apply String.eqb_neq in Hsig. now rewrite Hsig.
Qed.

Lemma verify_jwt_token_signed now claims :
  verify_jwt_token JWT_SECRET HS256 now (Signed claims (HS256 JWT_SECRET claims)) =
    if exp_passed now claims
    then Raise (HTTPException 401 "Token has expired")
    else match claim_email claims with
         | Some v => Ok v
         | None => Raise (Unhandled "KeyError")
         end.
Proof.
  unfold verify_jwt_token, jwt_decode. rewrite String.eqb_refl.
  now destruct (exp_passed now claims).
Qed.

Lemma verify_issued_token (issued_at now : datetime) (address : string) :
  verify_jwt_token JWT_SECRET HS256 now
    (create_jwt_token JWT_SECRET HS256 issued_at address) =
    if (issued_at + timedelta_days 7) / microseconds_per_second
         * microseconds_per_second <=? now
    then Raise (HTTPException 401 "Token has expired")
    else Ok (StrValue address).
Proof.
  unfold create_jwt_token, jwt_encode. now rewrite verify_jwt_token_signed.
Qed.

(** C6 (amended).  The token [create_jwt_token] issues for an email carries
    that email and, as its expiry, the instant seven days after issuance
    rounded down to a whole second (so up to one second, less a microsecond,
    before seven days are over), signed under the server's secret.
    [verify_jwt_token] with the same secret gives the email back at every
    instant before that embedded expiry, hence at least up to one second
    before seven days from issuance, and answers 401 "Token has expired"
    from the embedded expiry on, hence from seven days after issuance on.  A
    credential that does not parse, and one whose signature is not the
    secret's signature of its payload (altered payload or signature, or
    signed under a key that signs differently), is answered 401
    "Invalid token" at any time; a correctly signed token whose embedded
    expiry has passed is answered 401 "Token has expired". *)
Theorem session_token_round_trip (address : string) (issued_at : datetime) :
  let tok := create_jwt_token JWT_SECRET HS256 issued_at address in
  let expiry := (issued_at + timedelta_days 7) / microseconds_per_second in
  let claims := {| claim_email := Some (StrValue address);
                   claim_exp := Some expiry |} in
  tok = Signed claims (HS256 JWT_SECRET claims) /\
  issued_at + 604800000000 - 1000000
    < expiry * 1000000 <= issued_at + 604800000000 /\
  (forall now, now < expiry * 1000000 ->
     verify_jwt_token JWT_SECRET HS256 now tok = Ok (StrValue address)) /\
  (forall now, expiry * 1000000 <= now ->
     verify_jwt_token JWT_SECRET HS256 now tok =
       Raise (HTTPException 401 "Token has expired")) /\
  (forall now, now + 1000000 <= issued_at + 604800000000 ->
     verify_jwt_token JWT_SECRET HS256 now tok = Ok (StrValue address)) /\
  (forall now, issued_at + 604800000000 <= now ->
     verify_jwt_token JWT_SECRET HS256 now tok =
       Raise (HTTPException 401 "Token has expired")) /\
  (forall now raw,
     verify_jwt_token JWT_SECRET HS256 now (Malformed raw) =
       Raise (HTTPException 401 "Invalid token")) /\
  (forall now other_claims signature,
     signature <> HS256 JWT_SECRET other_claims ->
     verify_jwt_token JWT_SECRET HS256 now (Signed other_claims signature) =
       Raise (HTTPException 401 "Invalid token")) /\
  (forall now key payload_email payload_exp,
     HS256 key (mkClaims (Some (StrValue payload_email))
                  (Some (payload_exp / microseconds_per_second))) <>
       HS256 JWT_SECRET (mkClaims (Some (StrValue payload_email))
                           (Some (payload_exp / microseconds_per_second))) ->
     verify_jwt_token JWT_SECRET HS256 now (jwt_encode HS256 payload_email payload_exp key) =
       Raise (HTTPException 401 "Invalid token")) /\
  (forall now other_claims exp,
     claim_exp other_claims = Some exp ->
     exp * 1000000 <= now ->
     verify_jwt_token JWT_SECRET HS256 now
       (Signed other_claims (HS256 JWT_SECRET other_claims)) =
       Raise (HTTPException 401 "Token has expired")).
Proof.
  intros tok expiry claims.
  assert (Hbounds : issued_at + 604800000000 - 1000000
                    < expiry * 1000000 <= issued_at + 604800000000).
  { subst expiry. pose proof (numeric_date_bounds (issued_at + timedelta_days 7)) as Hb.
    unfold timedelta_days, microseconds_per_second in *. lia. }
  assert (Hvalid : forall now, now < expiry * 1000000 ->
            verify_jwt_token JWT_SECRET HS256 now tok = Ok (StrValue address)).
  { intros now Hnow. subst tok. rewrite verify_issued_token.
    fold expiry. unfold microseconds_per_second.
    replace (expiry * 1000000 <=? now) with false
      by (symmetry; apply Z.leb_gt; exact Hnow).
    reflexivity. }
  assert (Hexpired : forall now, expiry * 1000000 <= now ->
            verify_jwt_token JWT_SECRET HS256 now tok =
              Raise (HTTPException 401 "Token has expired")).
  { intros now Hnow. subst tok. rewrite verify_issued_token.
    fold expiry. unfold microseconds_per_second.
    replace (expiry * 1000000 <=? now) with true
      by (symmetry; apply Z.leb_le; exact Hnow).
    reflexivity. }
  split; [reflexivity|].
  split; [exact Hbounds|].
  split; [exact Hvalid|].
  split; [exact Hexpired|].
  split; [intros now Hnow; apply Hvalid; lia|].
  split; [intros now Hnow; apply Hexpired; lia|].
  split; [intros now raw; reflexivity|].
  split; [intros now other_claims signature; apply verify_jwt_token_bad_signature|].
  split.
  { intros now key payload_email payload_exp Hkey.
    unfold jwt_encode. now apply verify_jwt_token_bad_signature. }
  intros now other_claims exp Hexp Hnow. rewrite verify_jwt_token_signed.
  unfold exp_passed. rewrite Hexp. unfold microseconds_per_second.
  replace (exp * 1000000 <=? now) with true
    by (symmetry; apply Z.leb_le; exact Hnow).
  reflexivity.
Qed.

End AuthProperties.

(** * Further properties of the routes *)

(** ** The store under the admin routes *)

Section StoreShape.
Context {D : Type}.
Variable p : D -> bool.

Lemma existsb_none (c : list D) :
  (forall x, In x c -> p x = false) -> existsb p c = false.
Proof.
  induction c as [|d c IH]; intros Hall; cbn; [reflexivity|].
  rewrite (Hall d (or_introl eq_refl)). apply IH.
  intros x Hx. apply Hall. now right.
Qed.

Lemma existsb_at (before after : list D) (d : D) :
  p d = true -> existsb p (before ++ d :: after) = true.
Proof.
  intros Hd. rewrite existsb_app. cbn. rewrite Hd. apply orb_true_r.
Qed.

Lemma first_match (c : list D) :
  (forall x, In x c -> p x = false) \/
  exists before d after,
    c = before ++ d :: after /\ p d = true /\
    (forall x, In x before -> p x = false).
Proof.
  induction c as [|a c IH]; [left; intros x []|].
  destruct (p a) eqn:Ha.
  - right. exists [], a, c. repeat split; [exact Ha | intros x []].
  - destruct IH as [Hnone | (before & d & after & -> & Hd & Hb)].
    + left. intros x [<-|Hx]; [exact Ha | now apply Hnone].
    + right. exists (a :: before), d, after. repeat split; [exact Hd|].
      intros x [<-|Hx]; [exact Ha | now apply Hb].
Qed.

Lemma update_one_none (patch : D -> D) (c : list D) :
  (forall x, In x c -> p x = false) -> Collection.update_one p patch c = c.
Proof.
  induction c as [|d c IH]; intros Hall; cbn; [reflexivity|].
  rewrite (Hall d (or_introl eq_refl)). f_equal.
  apply IH. intros x Hx. apply Hall. now right.
Qed.

Lemma delete_one_none (c : list D) :
  (forall x, In x c -> p x = false) -> Collection.delete_one p c = c.
Proof.
  induction c as [|d c IH]; intros Hall; cbn; [reflexivity|].
  rewrite (Hall d (or_introl eq_refl)). f_equal.
  apply IH. intros x Hx. apply Hall. now right.
Qed.

Lemma map_update_one {B} (f : D -> B) (patch : D -> D) (c : list D) :
  (forall d, f (patch d) = f d) ->
  map f (Collection.update_one p patch c) = map f c.
Proof.
  intros Hf. induction c as [|d c IH]; cbn; [reflexivity|].
  destruct (p d); cbn; [now rewrite Hf | now rewrite IH].
Qed.

Lemma delete_one_incl (c : list D) (x : D) :
  In x (Collection.delete_one p c) -> In x c.
Proof.
  induction c as [|d c IH]; cbn; [tauto|].
  destruct (p d); cbn; [now right|].
  intros [<-|Hx]; [now left | right; now apply IH].
Qed.

Lemma NoDup_map_delete_one {B} (f : D -> B) (c : list D) :
  NoDup (map f c) -> NoDup (map f (Collection.delete_one p c)).
Proof.
  induction c as [|d c IH]; cbn; intros Hnd; [exact Hnd|].
  inversion Hnd as [|? ? Hnotin Hrest]; subst.
  destruct (p d); cbn; [exact Hrest|].
  constructor; [|now apply IH].
  intros Hin. apply Hnotin.
  apply in_map_iff in Hin. destruct Hin as (x & Hfx & Hx).
  apply in_map_iff. exists x. split; [exact Hfx | now apply delete_one_incl].
Qed.
End StoreShape.

Lemma dollar_set_id (fs : list field_update) (d : MenuItem) :
  id (dollar_set fs d) = id d.
Proof.
  unfold dollar_set. revert d.
  induction fs as [|f fs IH]; intros d; cbn; [reflexivity|].
  rewrite IH. now destruct f.
Qed.

Lemma dollar_set_created_at (fs : list field_update) (d : MenuItem) :
  created_at (dollar_set fs d) = created_at d.
Proof.
  unfold dollar_set. revert d.
  induction fs as [|f fs IH]; intros d; cbn; [reflexivity|].
  rewrite IH. now destruct f.
Qed.

(** The store each admin write leaves, whatever it answers. *)
Lemma update_menu_item_store (item_id admin_email : string) (item : MenuItemUpdate)
    (db : Db) :
  snd (update_menu_item item_id item admin_email db) =
    mkDb (Collection.update_one (by_id item_id) (dollar_set (update_data_of item))
            (menu_items db))
         (otp_verifications db).
Proof.
  destruct (first_match (by_id item_id) (menu_items db))
    as [Hnone | (before & d & after & Hitems & Hd & Hb)].
  - rewrite update_menu_item_unknown
      by (intros x Hx; apply by_id_false; now apply Hnone).
    cbn [snd]. rewrite update_one_none by exact Hnone. now destruct db.
  - rewrite (update_menu_item_present item_id admin_email item db before after d Hitems)
      by (try (now apply by_id_true); intros x Hx; apply by_id_false; now apply Hb).
    cbn [snd]. rewrite Hitems. now rewrite (update_one_at _ _ _ _ _ Hb Hd).
Qed.

Lemma toggle_special_store (item_id admin_email : string) (db : Db) :
  snd (toggle_special item_id admin_email db) =
    mkDb (Collection.update_one (by_id item_id)
            (fun d => set_is_special (negb (is_special d)) d) (menu_items db))
         (otp_verifications db).
Proof.
  destruct db as [items otps]. cbn [menu_items otp_verifications].
  destruct (first_match (by_id item_id) items)
    as [Hnone | (before & d & after & -> & Hd & Hb)].
  - rewrite toggle_special_unknown
      by (intros x Hx; apply by_id_false; now apply Hnone).
    cbn [snd]. now rewrite update_one_none.
  - rewrite toggle_special_present
      by (try (now apply by_id_true); intros x Hx; apply by_id_false; now apply Hb).
    cbn [snd]. now rewrite (update_one_at _ _ _ _ _ Hb Hd).
Qed.

Lemma toggle_available_store (item_id admin_email : string) (db : Db) :
  snd (toggle_available item_id admin_email db) =
    mkDb (Collection.update_one (by_id item_id)
            (fun d => set_available (negb (available d)) d) (menu_items db))
         (otp_verifications db).
Proof.
  destruct db as [items otps]. cbn [menu_items otp_verifications].
  destruct (first_match (by_id item_id) items)
    as [Hnone | (before & d & after & -> & Hd & Hb)].
  - rewrite toggle_available_unknown
      by (intros x Hx; apply by_id_false; now apply Hnone).
    cbn [snd]. now rewrite update_one_none.
  - rewrite toggle_available_present
      by (try (now apply by_id_true); intros x Hx; apply by_id_false; now apply Hb).
    cbn [snd]. now rewrite (update_one_at _ _ _ _ _ Hb Hd).
Qed.

Lemma delete_menu_item_unknown (item_id admin_email : string) (db : Db) :
  (forall x, In x (menu_items db) -> id x <> item_id) ->
  delete_menu_item item_id admin_email db =
    (Raise (HTTPException 404 "Menu item not found"), db).
Proof.
  intros Hno.
  assert (Hnone : forall x, In x (menu_items db) -> by_id item_id x = false)
    by (intros x Hx; apply by_id_false; now apply Hno).
  unfold delete_menu_item. run_handler. unfold Collection.deleted_count.
  rewrite (existsb_none _ _ Hnone), (delete_one_none _ _ Hnone). cbn.
  now rewrite db_eta.
Qed.

Lemma delete_menu_item_present (item_id admin_email : string) (otps : list OTPDoc)
    (before after : list MenuItem) (d : MenuItem) :
  id d = item_id ->
  (forall x, In x before -> id x <> item_id) ->
  delete_menu_item item_id admin_email (mkDb (before ++ d :: after) otps) =
    (Ok "Menu item deleted successfully", mkDb (before ++ after) otps).
Proof.
  intros Hid Hbefore.
  assert (Hb : forall x, In x before -> by_id item_id x = false)
    by (intros x Hx; apply by_id_false; now apply Hbefore).
  assert (Hd : by_id item_id d = true) by now apply by_id_true.
  unfold delete_menu_item. run_handler. unfold Collection.deleted_count.
  cbn [menu_items otp_verifications].
  rewrite (existsb_at _ _ _ _ Hd), (delete_one_at _ _ _ _ Hb Hd). reflexivity.
Qed.

(** X1.  [delete_menu_item] on an id that no stored item carries answers 404
    and leaves the store as it was; on a present id it removes exactly the
    first item carrying the id, keeps every other document (and their order)
    and answers with the confirmation message. *)
Theorem delete_menu_item_removes_one (item_id admin_email : string) :
  (forall db,
     (forall x, In x (menu_items db) -> id x <> item_id) ->
     delete_menu_item item_id admin_email db =
       (Raise (HTTPException 404 "Menu item not found"), db)) /\
  (forall otps before d after,
     id d = item_id ->
     (forall x, In x before -> id x <> item_id) ->
     delete_menu_item item_id admin_email (mkDb (before ++ d :: after) otps) =
       (Ok "Menu item deleted successfully", mkDb (before ++ after) otps)).
Proof.
  split.
  - intros db. apply delete_menu_item_unknown.
  - intros otps before d after. apply delete_menu_item_present.
Qed.

(** X2.  Creating an item under an id that no stored item carries and then
    deleting that id gives back exactly the store from before the create. *)
Theorem create_then_delete_restores (uuid4 admin_email : string) (now : datetime)
    (item : MenuItemCreate) (db : Db) (s a : bool) :
  new_is_special item = Some s ->
  new_available item = Some a ->
  (forall x, In x (menu_items db) -> id x <> uuid4) ->
  delete_menu_item uuid4 admin_email
    (snd (create_menu_item uuid4 now item admin_email db)) =
    (Ok "Menu item deleted successfully", db).
Proof.
  intros Hs Ha Hfresh.
  rewrite (create_menu_item_accepts uuid4 admin_email now item db s a Hs Ha).
  cbn [snd].
  rewrite delete_menu_item_present; [|reflexivity|exact Hfresh].
  rewrite app_nil_r. now destruct db.
Qed.

Lemma writes_keep_ids (item_id admin_email : string) (item : MenuItemUpdate)
    (db : Db) :
  map id (menu_items (snd (update_menu_item item_id item admin_email db))) =
    map id (menu_items db) /\
  map id (menu_items (snd (toggle_special item_id admin_email db))) =
    map id (menu_items db) /\
  map id (menu_items (snd (toggle_available item_id admin_email db))) =
    map id (menu_items db).
Proof.
  rewrite update_menu_item_store, toggle_special_store, toggle_available_store.
  cbn [menu_items].
  split; [|split]; apply map_update_one; intros d;
    try apply dollar_set_id; reflexivity.
Qed.

(** X3.  [update_menu_item], [toggle_special] and [toggle_available] never
    change which ids are stored, in which order, nor any [created_at], on any
    store and for any argument (a 404 answer included); they never touch the
    OTP collection either. *)
Theorem writes_keep_ids_and_creation_times (item_id admin_email : string)
    (item : MenuItemUpdate) (db : Db) :
  let after_update := snd (update_menu_item item_id item admin_email db) in
  let after_special := snd (toggle_special item_id admin_email db) in
  let after_available := snd (toggle_available item_id admin_email db) in
  (map id (menu_items after_update) = map id (menu_items db) /\
   map created_at (menu_items after_update) = map created_at (menu_items db) /\
   otp_verifications after_update = otp_verifications db) /\
  (map id (menu_items after_special) = map id (menu_items db) /\
   map created_at (menu_items after_special) = map created_at (menu_items db) /\
   otp_verifications after_special = otp_verifications db) /\
  (map id (menu_items after_available) = map id (menu_items db) /\
   map created_at (menu_items after_available) = map created_at (menu_items db) /\
   otp_verifications after_available = otp_verifications db).
Proof.
  cbv zeta.
  rewrite update_menu_item_store, toggle_special_store, toggle_available_store.
  cbn [menu_items otp_verifications].
  split; [|split]; (split; [|split]); try reflexivity;
    apply map_update_one; intros d;
    try apply dollar_set_id; try apply dollar_set_created_at; reflexivity.
Qed.

Lemma create_menu_item_store (uuid4 admin_email : string) (now : datetime)
    (item : MenuItemCreate) (db : Db) :
  snd (create_menu_item uuid4 now item admin_email db) = db \/
  exists m,
    id m = uuid4 /\
    snd (create_menu_item uuid4 now item admin_email db) =
      mkDb (menu_items db ++ [m]) (otp_verifications db).
Proof.
  unfold create_menu_item, MenuItem_of_create.
  destruct (new_is_special item) as [s|]; [|now left].
  destruct (new_available item) as [a|]; [|now left].
  right. eexists. split; [|reflexivity]. reflexivity.
Qed.

Lemma delete_menu_item_store (item_id admin_email : string) (db : Db) :
  snd (delete_menu_item item_id admin_email db) =
    mkDb (Collection.delete_one (by_id item_id) (menu_items db))
         (otp_verifications db).
Proof.
  unfold delete_menu_item. run_handler.
  now destruct (Z.eqb _ 0).
Qed.

(** X4.  Pairwise distinct ids stay pairwise distinct under every admin
    write: a create whose fresh id is not yet stored, an update, either
    toggle and a delete, whatever they answer. *)
Theorem admin_writes_keep_ids_unique (db : Db) :
  NoDup (map id (menu_items db)) ->
  (forall uuid4 now item admin_email,
     (forall x, In x (menu_items db) -> id x <> uuid4) ->
     NoDup (map id (menu_items (snd (create_menu_item uuid4 now item admin_email db))))) /\
  (forall item_id item admin_email,
     NoDup (map id (menu_items (snd (update_menu_item item_id item admin_email db))))) /\
  (forall item_id admin_email,
     NoDup (map id (menu_items (snd (toggle_special item_id admin_email db)))) /\
     NoDup (map id (menu_items (snd (toggle_available item_id admin_email db)))) /\
     NoDup (map id (menu_items (snd (delete_menu_item item_id admin_email db))))).
Proof.
  intros Hnd. split; [|split].
  - intros uuid4 now item admin_email Hfresh.
    destruct (create_menu_item_store uuid4 admin_email now item db)
      as [-> | (m & Hm & ->)]; [exact Hnd|].
    cbn [menu_items]. rewrite map_app. cbn.
    apply NoDup_app; [exact Hnd | repeat constructor; intros [] |].
    intros y Hy [<-|[]].
    apply in_map_iff in Hy. destruct Hy as (x & Hxy & Hx).
    apply (Hfresh x Hx). congruence.
  - intros item_id item admin_email.
    destruct (writes_keep_ids item_id admin_email item db) as (-> & _).
    exact Hnd.
  - intros item_id admin_email.
    destruct (writes_keep_ids item_id admin_email
                (mkMenuItemUpdate None None None None None None None) db)
      as (_ & -> & ->).
    split; [exact Hnd|]. split; [exact Hnd|].
    rewrite delete_menu_item_store. cbn [menu_items].
    now apply NoDup_map_delete_one.
Qed.

(** X5.  In a store with pairwise distinct ids, once [delete_menu_item] has
    run for an id no stored item carries that id any more: a second delete,
    an update and both toggles on it answer 404 and change nothing. *)
Theorem deleted_id_is_gone (item_id admin_email : string) (item : MenuItemUpdate)
    (db : Db) :
  NoDup (map id (menu_items db)) ->
  let db' := snd (delete_menu_item item_id admin_email db) in
  (forall x, In x (menu_items db') -> id x <> item_id) /\
  delete_menu_item item_id admin_email db' =
    (Raise (HTTPException 404 "Menu item not found"), db') /\
  update_menu_item item_id item admin_email db' =
    (Raise (HTTPException 404 "Menu item not found"), db') /\
  toggle_special item_id admin_email db' =
    (Raise (HTTPException 404 "Menu item not found"), db') /\
  toggle_available item_id admin_email db' =
    (Raise (HTTPException 404 "Menu item not found"), db').
Proof.
  intros Hnd db'.
  assert (Hgone : forall x, In x (menu_items db') -> id x <> item_id).
  { subst db'. rewrite delete_menu_item_store. cbn [menu_items].
    destruct (first_match (by_id item_id) (menu_items db))
      as [Hnone | (before & d & after & Hitems & Hd & Hb)].
    - rewrite delete_one_none by exact Hnone.
      intros x Hx. apply by_id_false. now apply Hnone.
    - rewrite Hitems, (delete_one_at _ _ _ _ Hb Hd).
      rewrite Hitems, map_app in Hnd. cbn in Hnd.
      apply NoDup_remove_2 in Hnd.
      intros x Hx Hid. apply Hnd. rewrite <- map_app.
      apply by_id_true in Hd. rewrite Hd, <- Hid. now apply in_map. }
  split; [exact Hgone|].
  split; [now apply delete_menu_item_unknown|].
  split; [now apply update_menu_item_unknown|].
  split; [now apply toggle_special_unknown | now apply toggle_available_unknown].
Qed.

Lemma dollar_set_idempotent (item : MenuItemUpdate) (d : MenuItem) :
  dollar_set (update_data_of item) (dollar_set (update_data_of item) d) =
  dollar_set (update_data_of item) d.
Proof.
  destruct item as [c n pr de sp av im].
  destruct c, n, pr, de, sp, av, im; reflexivity.
Qed.

(** X6.  [update_menu_item] is idempotent: sending the same partial payload
    for the same id a second time gives the same answer and leaves the store
    as the first call left it. *)
Theorem update_menu_item_idempotent (item_id admin_email : string)
    (item : MenuItemUpdate) (db : Db) :
  update_menu_item item_id item admin_email
    (snd (update_menu_item item_id item admin_email db)) =
  update_menu_item item_id item admin_email db.
Proof.
  destruct db as [items otps].
  destruct (first_match (by_id item_id) items)
    as [Hnone | (before & d & after & -> & Hd & Hb)].
  - assert (Hno : forall x, In x items -> id x <> item_id)
      by (intros x Hx; apply by_id_false; now apply Hnone).
    rewrite (update_menu_item_unknown item_id admin_email item (mkDb items otps) Hno).
    cbn [snd]. now apply update_menu_item_unknown.
  - assert (Hbefore : forall x, In x before -> id x <> item_id)
      by (intros x Hx; apply by_id_false; now apply Hb).
    apply by_id_true in Hd.
    rewrite (update_menu_item_present item_id admin_email item
               (mkDb (before ++ d :: after) otps) before after d
               eq_refl Hd Hbefore).
    cbn [snd otp_verifications].
    rewrite (update_menu_item_present item_id admin_email item
               (mkDb (before ++ dollar_set (update_data_of item) d :: after) otps)
               before after (dollar_set (update_data_of item) d) eq_refl);
      [|now rewrite dollar_set_id | exact Hbefore].
    cbn [otp_verifications]. now rewrite dollar_set_idempotent.
Qed.

(** X7.  An update whose payload provides no field (every field null or
    left out) writes nothing: for a present id it answers with the stored
    item and the store stays as it was. *)
Theorem update_menu_item_without_fields (item_id admin_email : string) (db : Db)
    (before after : list MenuItem) (d : MenuItem) :
  menu_items db = before ++ d :: after ->
  id d = item_id ->
  (forall x, In x before -> id x <> item_id) ->
  update_menu_item item_id (mkMenuItemUpdate None None None None None None None)
    admin_email db = (Ok d, db).
Proof.
  intros Hitems Hid Hbefore.
  rewrite (update_menu_item_present item_id admin_email _ db before after d
             Hitems Hid Hbefore).
  cbn. rewrite <- Hitems. now destruct db.
Qed.

Lemma update_one_commute {D : Type} (p : D -> bool) (f g : D -> D) (c : list D) :
  (forall d, p (f d) = p d) -> (forall d, p (g d) = p d) ->
  (forall d, f (g d) = g (f d)) ->
  Collection.update_one p f (Collection.update_one p g c) =
  Collection.update_one p g (Collection.update_one p f c).
Proof.
  intros Hf Hg Hfg. induction c as [|d c IH]; cbn; [reflexivity|].
  destruct (p d) eqn:Hd; cbn.
  - now rewrite Hf, Hg, Hd, Hfg.
  - now rewrite Hd, IH.
Qed.

(** X8.  The two toggles commute: toggling the special flag and then the
    availability of an id leaves the same store as doing it the other way
    round. *)
Theorem toggles_commute (item_id admin_email : string) (db : Db) :
  snd (toggle_available item_id admin_email
         (snd (toggle_special item_id admin_email db))) =
  snd (toggle_special item_id admin_email
         (snd (toggle_available item_id admin_email db))).
Proof.
  rewrite !toggle_available_store, !toggle_special_store.
  cbn [menu_items otp_verifications]. f_equal.
  apply update_one_commute; reflexivity.
Qed.

(** ** Listings after writes *)

Lemma firstn_In {A} (n : nat) (l : list A) (x : A) : In x (firstn n l) -> In x l.
Proof.
  intros Hx. rewrite <- (firstn_skipn n l). apply in_or_app. now left.
Qed.

Lemma get_all_menu_items_run (admin_email : string) (db : Db) :
  get_all_menu_items admin_email db = (Ok (firstn 1000 (menu_items db)), db).
Proof.
  unfold get_all_menu_items, with_menu_items, keep, Collection.find_to_list.
  now rewrite filter_all, db_eta.
Qed.

Lemma get_menu_run (db : Db) :
  get_menu db = (Ok (firstn 1000 (filter available (menu_items db))), db).
Proof.
  unfold get_menu, with_menu_items, keep, Collection.find_to_list.
  now rewrite db_eta.
Qed.

Lemma get_specials_run (db : Db) :
  get_specials db =
    (Ok (firstn 1000 (filter (fun d => is_special d && available d) (menu_items db))),
     db).
Proof.
  unfold get_specials, with_menu_items, keep, Collection.find_to_list.
  now rewrite db_eta.
Qed.

(** X9.  After a create under an id not yet stored, the admin listing shows
    the new item exactly when the catalogue held fewer than 1000 items
    before: the item is appended at the end, and from 1000 stored items on
    the listing stops before it. *)
Theorem created_item_listed_below_cap (uuid4 admin_email : string) (now : datetime)
    (item : MenuItemCreate) (db : Db) (s a : bool) :
  new_is_special item = Some s ->
  new_available item = Some a ->
  (forall x, In x (menu_items db) -> id x <> uuid4) ->
  exists m db' l,
    create_menu_item uuid4 now item admin_email db = (Ok m, db') /\
    get_all_menu_items admin_email db' = (Ok l, db') /\
    ((List.length (menu_items db) < 1000)%nat ->
       l = menu_items db ++ [m]) /\
    ((1000 <= List.length (menu_items db))%nat ->
       l = firstn 1000 (menu_items db) /\ ~ In m l).
Proof.
  intros Hs Ha Hfresh.
  exists (mkMenuItem uuid4 (new_category item) (new_name item) (new_price item)
            (new_description item) s a (new_image_url item) now).
  eexists _, _. split; [now apply create_menu_item_accepts|].
  split; [apply get_all_menu_items_run|].
  cbn [menu_items]. split.
  - intros Hlt. apply firstn_all2. rewrite length_app. cbn. lia.
  - intros Hge.
    assert (Hcut : firstn 1000 (menu_items db ++
                     [mkMenuItem uuid4 (new_category item) (new_name item)
                        (new_price item) (new_description item) s a
                        (new_image_url item) now]) =
                   firstn 1000 (menu_items db)).
    { rewrite firstn_app.
      replace (1000 - List.length (menu_items db))%nat with 0%nat by lia.
      cbn. apply app_nil_r. }
    rewrite Hcut. split; [reflexivity|].
    intros Hin. apply firstn_In in Hin. now apply (Hfresh _ Hin).
Qed.

Lemma get_menu_sound (db : Db) (d : MenuItem) :
  In d (firstn 1000 (filter available (menu_items db))) ->
  In d (menu_items db) /\ available d = true.
Proof.
  intros Hd. apply firstn_In in Hd. now apply filter_In in Hd.
Qed.

Lemma get_specials_sound (db : Db) (d : MenuItem) :
  In d (firstn 1000 (filter (fun d => is_special d && available d) (menu_items db))) ->
  In d (menu_items db) /\ is_special d = true /\ available d = true.
Proof.
  intros Hd. apply firstn_In in Hd. apply filter_In in Hd.
  destruct Hd as [Hin Hb]. apply andb_true_iff in Hb. tauto.
Qed.

(** X10.  The public listings only show what they should: every item of
    [get_menu] is a stored item with [available] set, every item of
    [get_specials] a stored item with [is_special] and [available] set.
    While at most 1000 stored items are available, [get_menu] shows all of
    them and every listed special is also on the menu. *)
Theorem public_listings_show_available_items (db : Db) :
  exists l_menu l_specials,
    get_menu db = (Ok l_menu, db) /\
    get_specials db = (Ok l_specials, db) /\
    (forall d, In d l_menu -> In d (menu_items db) /\ available d = true) /\
    (forall d, In d l_specials ->
       In d (menu_items db) /\ is_special d = true /\ available d = true) /\
    ((Collection.count available (menu_items db) <= 1000)%nat ->
       (forall d, In d (menu_items db) -> available d = true -> In d l_menu) /\
       (forall d, In d l_specials -> In d l_menu)).
Proof.
  eexists _, _. split; [apply get_menu_run|]. split; [apply get_specials_run|].
  split; [apply get_menu_sound|]. split; [apply get_specials_sound|].
  intros Hcount. unfold Collection.count in Hcount.
  rewrite (firstn_all2 _ Hcount).
  split.
  - intros d Hin Hav. apply filter_In. now split.
  - intros d Hd. destruct (get_specials_sound db d Hd) as (Hin & _ & Hav).
    apply filter_In. now split.
Qed.

(** X11.  Switching an available item off with [toggle_available] takes it
    off the public menu and off the specials: in a store with pairwise
    distinct ids, no item listed afterwards by [get_menu] or [get_specials]
    carries its id. *)
Theorem unavailable_item_leaves_public_menu (item_id admin_email : string)
    (otps : list OTPDoc) (before after : list MenuItem) (d : MenuItem) :
  id d = item_id ->
  available d = true ->
  NoDup (map id (before ++ d :: after)) ->
  let db' := snd (toggle_available item_id admin_email
                    (mkDb (before ++ d :: after) otps)) in
  exists l_menu l_specials,
    get_menu db' = (Ok l_menu, db') /\
    get_specials db' = (Ok l_specials, db') /\
    (forall x, In x l_menu -> id x <> item_id) /\
    (forall x, In x l_specials -> id x <> item_id).
Proof.
  intros Hid Hav Hnd db'.
  assert (Hdisj : forall x, In x (before ++ after) -> id x <> item_id).
  { rewrite map_app in Hnd. cbn in Hnd. apply NoDup_remove_2 in Hnd.
    intros x Hx Hxid. apply Hnd. rewrite <- map_app, Hid, <- Hxid.
    now apply in_map. }
  assert (Hbefore : forall x, In x before -> id x <> item_id)
    by (intros x Hx; apply Hdisj; apply in_or_app; now left).
  assert (Hdb' : db' = mkDb (before ++ set_available false d :: after) otps).
  { subst db'. rewrite toggle_available_present by assumption.
    cbn [snd]. now rewrite Hav. }
  assert (Hlisted : forall x, In x (menu_items db') -> available x = true ->
                    id x <> item_id).
  { rewrite Hdb'. cbn [menu_items]. intros x Hx Hxav.
    apply in_app_or in Hx. destruct Hx as [Hx | [<- | Hx]].
    - now apply Hbefore.
    - discriminate Hxav.
    - apply Hdisj. apply in_or_app. now right. }
  eexists _, _. split; [apply get_menu_run|]. split; [apply get_specials_run|].
  split.
  - intros x Hx. destruct (get_menu_sound db' x Hx). now apply Hlisted.
  - intros x Hx. destruct (get_specials_sound db' x Hx) as (? & _ & ?).
    now apply Hlisted.
Qed.

(** ** Categories *)

Lemma string_compare_refl (s : string) : String.compare s s = Eq.
Proof.
  pose proof (String.compare_antisym s s) as H.
  destruct (String.compare s s); [reflexivity | discriminate H | discriminate H].
Qed.

Lemma string_compare_lt_trans (s1 s2 s3 : string) :
  String.compare s1 s2 = Lt -> String.compare s2 s3 = Lt ->
  String.compare s1 s3 = Lt.
Proof.
  revert s2 s3.
  induction s1 as [|a s1 IH]; intros [|b s2] [|c s3]; cbn;
    try discriminate; try reflexivity.
  destruct (Ascii.compare a b) eqn:Hab; try discriminate.
  - apply Ascii.compare_eq_iff in Hab. subst b.
    destruct (Ascii.compare a c); try discriminate; [apply IH | reflexivity].
  - intros _.
    destruct (Ascii.compare b c) eqn:Hbc; try discriminate.
    + apply Ascii.compare_eq_iff in Hbc. subst c. now rewrite Hab.
    + intros _. unfold Ascii.compare in *.
      apply N.compare_lt_iff in Hab, Hbc.
      replace (Ascii.N_of_ascii a ?= Ascii.N_of_ascii c)%N with Lt; [reflexivity|].
      symmetry. apply N.compare_lt_iff. now apply N.lt_trans with (Ascii.N_of_ascii b).
Qed.

Lemma string_ltb_trans (s1 s2 s3 : string) :
  String.ltb s1 s2 = true -> String.ltb s2 s3 = true -> String.ltb s1 s3 = true.
Proof.
  unfold String.ltb. intros H12 H23.
  destruct (String.compare s1 s2) eqn:E12; try discriminate.
  destruct (String.compare s2 s3) eqn:E23; try discriminate.
  now rewrite (string_compare_lt_trans _ _ _ E12 E23).
Qed.

Lemma string_leb_neq_ltb (x y : string) :
  String.leb x y = true -> x <> y -> String.ltb x y = true.
Proof.
  unfold String.leb, String.ltb. intros Hle Hne.
  destruct (String.compare x y) eqn:E; [|reflexivity|discriminate].
  now apply String.compare_eq_iff in E.
Qed.

Lemma string_not_leb_ltb (x y : string) :
  String.leb x y = false -> String.ltb y x = true.
Proof.
  unfold String.leb, String.ltb. rewrite (String.compare_antisym y x).
  now destruct (String.compare x y).
Qed.

Lemma insort_In (x y : string) (l : list string) :
  In y (insort x l) <-> y = x \/ In y l.
Proof.
  induction l as [|z l IH]; cbn; [intuition congruence|].
  destruct (String.leb x z); cbn; [intuition congruence|].
  rewrite IH. intuition congruence.
Qed.

Lemma sorted_In (y : string) (l : list string) : In y (sorted l) <-> In y l.
Proof.
  induction l as [|x l IH]; cbn; [reflexivity|].
  rewrite insort_In, IH. intuition congruence.
Qed.

Lemma insort_increasing (x : string) (l : list string) :
  StronglySorted (fun a b => String.ltb a b = true) l ->
  ~ In x l ->
  StronglySorted (fun a b => String.ltb a b = true) (insort x l).
Proof.
  induction 1 as [|y l Hsorted IH Hy]; intros Hnotin; cbn.
  - repeat constructor.
  - destruct (String.leb x y) eqn:Hxy.
    + assert (Hlt : String.ltb x y = true).
      { apply string_leb_neq_ltb; [exact Hxy|].
        intros ->. apply Hnotin. now left. }
      constructor; [now constructor|].
      constructor; [exact Hlt|].
      eapply Forall_impl; [|exact Hy].
      intros z Hz. now apply string_ltb_trans with y.
    + constructor.
      * apply IH. intros Hin. apply Hnotin. now right.
      * apply Forall_forall. intros z Hz.
        apply insort_In in Hz. destruct Hz as [-> | Hz].
        -- now apply string_not_leb_ltb.
        -- rewrite Forall_forall in Hy. now apply Hy.
Qed.

Lemma sorted_increasing (l : list string) :
  NoDup l -> StronglySorted (fun a b => String.ltb a b = true) (sorted l).
Proof.
  induction 1 as [|x l Hx Hnd IH]; cbn; [constructor|].
  apply insort_increasing; [exact IH|].
  now rewrite sorted_In.
Qed.

Lemma increasing_unique (l1 l2 : list string) :
  StronglySorted (fun a b => String.ltb a b = true) l1 ->
  StronglySorted (fun a b => String.ltb a b = true) l2 ->
  (forall c, In c l1 <-> In c l2) ->
  l1 = l2.
Proof.
  intros H1. revert l2.
  assert (Hirr : forall s, String.ltb s s = true -> False).
  { intros s. unfold String.ltb. now rewrite string_compare_refl. }
  induction H1 as [|x l1 Hs1 IH Hx]; intros l2 H2 Hsame.
  - destruct l2 as [|y l2]; [reflexivity|].
    destruct (proj2 (Hsame y) (or_introl eq_refl)).
  - destruct H2 as [|y l2 Hs2 Hy].
    + destruct (proj1 (Hsame x) (or_introl eq_refl)).
    + rewrite Forall_forall in Hx, Hy.
      assert (Hxy : x = y).
      { destruct (proj1 (Hsame x) (or_introl eq_refl)) as [Heq | Hin]; [now symmetry|].
        destruct (proj2 (Hsame y) (or_introl eq_refl)) as [Heq | Hin']; [exact Heq|].
        exfalso. apply (Hirr x).
        apply string_ltb_trans with y; [now apply Hx | now apply Hy]. }
      subst y. f_equal. apply IH; [exact Hs2|].
      intros c. split; intros Hc.
      * destruct (proj1 (Hsame c) (or_intror Hc)) as [<- | Hin]; [|exact Hin].
        exfalso. apply (Hirr x). now apply Hx.
      * destruct (proj2 (Hsame c) (or_intror Hc)) as [<- | Hin]; [|exact Hin].
        exfalso. apply (Hirr x). now apply Hy.
Qed.

Lemma get_categories_run (db : Db) :
  get_categories db = (Ok (sorted (distinct (map category (menu_items db)))), db).
Proof.
  unfold get_categories, with_menu_items, keep. now rewrite db_eta.
Qed.

Lemma categories_In (db : Db) (c : string) :
  In c (sorted (distinct (map category (menu_items db)))) <->
  exists d, In d (menu_items db) /\ category d = c.
Proof.
  rewrite sorted_In. unfold distinct. rewrite nodup_In, in_map_iff.
  split; intros (d & H1 & H2); exists d; tauto.
Qed.

(** X12.  [get_categories] answers with the categories of the stored items,
    available or not, each exactly once and in strictly increasing order; it
    changes nothing.  The answer depends only on which categories occur:
    two stores with the same set of categories get the same list. *)
Theorem get_categories_sorted_and_complete (db : Db) :
  exists categories,
    get_categories db = (Ok categories, db) /\
    StronglySorted (fun a b => String.ltb a b = true) categories /\
    NoDup categories /\
    (forall c, In c categories <->
               exists d, In d (menu_items db) /\ category d = c) /\
    (forall db',
       (forall c, (exists d, In d (menu_items db) /\ category d = c) <->
                  (exists d, In d (menu_items db') /\ category d = c)) ->
       fst (get_categories db') = Ok categories).
Proof.
  exists (sorted (distinct (map category (menu_items db)))).
  assert (Hinc : forall db0,
            StronglySorted (fun a b => String.ltb a b = true)
              (sorted (distinct (map category (menu_items db0)))))
    by (intros db0; apply sorted_increasing, NoDup_nodup).
  split; [apply get_categories_run|].
  split; [apply Hinc|].
  split.
  { generalize (Hinc db).
    generalize (sorted (distinct (map category (menu_items db)))).
    induction 1 as [|x l Hs IH Hx]; constructor; [|exact IH].
    intros Hin. rewrite Forall_forall in Hx. specialize (Hx x Hin).
    unfold String.ltb in Hx. now rewrite string_compare_refl in Hx. }
  split; [apply categories_In|].
  intros db' Hsame. rewrite get_categories_run. cbn [fst]. f_equal.
  apply increasing_unique; [apply Hinc | apply Hinc |].
  intros c. rewrite !categories_In. symmetry. apply Hsame.
Qed.

(** ** Start-up seeding *)

Lemma insert_each_run (uuid4 : nat -> string) (now : nat -> datetime)
    (data : list MenuSeed) (i : nat) (db : Db) :
  insert_each uuid4 now i data db =
    (Ok tt, mkDb (menu_items db ++ seeded uuid4 now i data) (otp_verifications db)).
Proof.
  revert i db. induction data as [|s data IH]; intros i db; cbn.
  - unfold ret. rewrite app_nil_r. now destruct db.
  - run_handler. rewrite IH. cbn [menu_items otp_verifications].
    unfold Collection.insert_one. now rewrite <- app_assoc.
Qed.

Lemma preload_run (data : list MenuSeed) (uuid4 : nat -> string)
    (now : nat -> datetime) (db : Db) :
  preload data uuid4 now db =
    (Ok tt,
     match menu_items db with
     | [] => mkDb (seeded uuid4 now 0 data) (otp_verifications db)
     | _ :: _ => db
     end).
Proof.
  unfold preload. run_handler. unfold Collection.count. rewrite filter_all.
  destruct db as [[|d items] otps]; cbn.
  - now rewrite insert_each_run.
  - reflexivity.
Qed.

Lemma seeded_length uuid4 now i data :
  List.length (seeded uuid4 now i data) = List.length data.
Proof.
  revert i. induction data as [|s data IH]; intros i; cbn; [reflexivity|].
  now rewrite IH.
Qed.

Lemma seeded_nth uuid4 now i data k s :
  nth_error data k = Some s ->
  nth_error (seeded uuid4 now i data) k =
    Some (MenuItem_of_seed (uuid4 (i + k)%nat) (now (i + k)%nat) s).
Proof.
  revert i k. induction data as [|s0 data IH]; intros i [|k]; cbn;
    try discriminate.
  - intros [= ->]. now rewrite Nat.add_0_r.
  - intros Hk. rewrite (IH (S i) k Hk). now rewrite Nat.add_succ_r.
Qed.

Lemma seeded_ids uuid4 now i data :
  map id (seeded uuid4 now i data) = map uuid4 (seq i (List.length data)).
Proof.
  revert i. induction data as [|s data IH]; intros i; cbn; [reflexivity|].
  now rewrite IH.
Qed.

Lemma seeded_available uuid4 now i data :
  filter available (seeded uuid4 now i data) = seeded uuid4 now i data.
Proof.
  revert i. induction data as [|s data IH]; intros i; cbn; [reflexivity|].
  now rewrite IH.
Qed.

Lemma seeded_no_special uuid4 now i data :
  filter (fun d => is_special d && available d) (seeded uuid4 now i data) = [].
Proof.
  revert i. induction data as [|s data IH]; intros i; cbn; [reflexivity|].
  apply IH.
Qed.

Lemma menu_data_length : List.length menu_data = 114%nat.
Proof. reflexivity. Qed.

(** X13.  [preload_menu_data] seeds only an empty collection: on a store
    that holds at least one item it changes nothing, and running it again
    after any run (with whatever identifiers and clock) changes nothing
    either. *)
Theorem preload_only_seeds_empty_collection (uuid4 uuid4' : nat -> string)
    (now now' : nat -> datetime) (db : Db) :
  (menu_items db <> [] -> preload_menu_data uuid4 now db = (Ok tt, db)) /\
  preload_menu_data uuid4' now' (snd (preload_menu_data uuid4 now db)) =
    (Ok tt, snd (preload_menu_data uuid4 now db)).
Proof.
  unfold preload_menu_data. rewrite !preload_run. cbn [snd]. split.
  - destruct (menu_items db); [congruence | reflexivity].
  - destruct (menu_items db) eqn:Hitems; [|now rewrite Hitems].
    reflexivity.
Qed.

(** X14.  On an empty collection [preload_menu_data] stores the whole table:
    114 items in table order, the [k]-th built from the [k]-th row with the
    [k]-th identifier and clock reading and the model's defaults (available,
    not special, empty image); the OTP collection is untouched.  Afterwards
    the public menu and the admin listing show all of them, no special is
    listed, and the ids are pairwise distinct when the identifiers drawn
    are. *)
Theorem preload_seeds_whole_table (otps : list OTPDoc) (uuid4 : nat -> string)
    (now : nat -> datetime) (admin_email : string) :
  exists db',
    preload_menu_data uuid4 now (mkDb [] otps) = (Ok tt, db') /\
    otp_verifications db' = otps /\
    List.length (menu_items db') = 114%nat /\
    (forall k row,
       nth_error menu_data k = Some row ->
       nth_error (menu_items db') k =
         Some (mkMenuItem (uuid4 k) (seed_category row) (seed_name row)
                 (seed_price row) (Some (seed_description row)) false true
                 (Some "") (now k))) /\
    get_menu db' = (Ok (menu_items db'), db') /\
    get_all_menu_items admin_email db' = (Ok (menu_items db'), db') /\
    get_specials db' = (Ok [], db') /\
    ((forall i j, uuid4 i = uuid4 j -> i = j) -> NoDup (map id (menu_items db'))).
Proof.
  exists (mkDb (seeded uuid4 now 0 menu_data) otps).
  split; [unfold preload_menu_data; now rewrite preload_run|].
  split; [reflexivity|].
  cbn [menu_items].
  assert (Hlen : List.length (seeded uuid4 now 0 menu_data) = 114%nat)
    by (rewrite seeded_length; apply menu_data_length).
  split; [exact Hlen|].
  split; [intros k row Hk; now rewrite (seeded_nth uuid4 now 0 menu_data k row Hk)|].
  split.
  { rewrite get_menu_run. cbn [menu_items].
    rewrite seeded_available, firstn_all2; [reflexivity | lia]. }
  split.
  { rewrite get_all_menu_items_run. cbn [menu_items].
    rewrite firstn_all2; [reflexivity | lia]. }
  split.
  { rewrite get_specials_run. cbn [menu_items].
    now rewrite seeded_no_special. }
  intros Hinj. rewrite seeded_ids.
  apply Injective_map_NoDup; [exact Hinj | apply seq_NoDup].
Qed.

(** ** Each route keeps to its collection *)

(** X15.  The menu routes and the start-up seeding never write to the OTP
    collection, the two authentication routes never write to the menu
    collection, and the listing routes write nothing at all, whatever they
    answer. *)
Theorem routes_keep_to_their_collection (db : Db) :
  (forall uuid4 now item admin_email,
     otp_verifications (snd (create_menu_item uuid4 now item admin_email db)) =
       otp_verifications db) /\
  (forall item_id item admin_email,
     otp_verifications (snd (update_menu_item item_id item admin_email db)) =
       otp_verifications db) /\
  (forall item_id admin_email,
     otp_verifications (snd (delete_menu_item item_id admin_email db)) =
       otp_verifications db /\
     otp_verifications (snd (toggle_special item_id admin_email db)) =
       otp_verifications db /\
     otp_verifications (snd (toggle_available item_id admin_email db)) =
       otp_verifications db) /\
  (forall uuid4 now,
     otp_verifications (snd (preload_menu_data uuid4 now db)) =
       otp_verifications db) /\
  (forall admin_email,
     snd (get_menu db) = db /\ snd (get_specials db) = db /\
     snd (get_categories db) = db /\ snd (get_all_menu_items admin_email db) = db) /\
  (forall ADMIN_EMAIL randint now_created now_expiry sendgrid_ok request,
     menu_items (snd (send_otp ADMIN_EMAIL randint now_created now_expiry
                        sendgrid_ok request db)) = menu_items db) /\
  (forall ADMIN_EMAIL JWT_SECRET HS256 now now_token request,
     menu_items (snd (verify_otp ADMIN_EMAIL JWT_SECRET HS256 now now_token
                        request db)) = menu_items db).
Proof.
  split.
  { intros uuid4 now item admin_email.
    destruct (create_menu_item_store uuid4 admin_email now item db)
      as [-> | (m & _ & ->)]; reflexivity. }
  split.
  { intros. now rewrite update_menu_item_store. }
  split.
  { intros. now rewrite delete_menu_item_store, toggle_special_store,
                        toggle_available_store. }
  split.
  { intros. unfold preload_menu_data. rewrite preload_run. cbn [snd].
    now destruct (menu_items db). }
  split.
  { intros. now rewrite get_menu_run, get_specials_run, get_categories_run,
                        get_all_menu_items_run. }
  split.
  { intros ADMIN_EMAIL randint now_created now_expiry sendgrid_ok [em].
    destruct (String.eqb_spec em ADMIN_EMAIL) as [-> | Hne].
    - now rewrite send_otp_admin.
    - now rewrite send_otp_other_email. }
  intros ADMIN_EMAIL JWT_SECRET HS256 now now_token request.
  now destruct (verify_otp_store ADMIN_EMAIL JWT_SECRET HS256 now now_token request db).
Qed.

(** ** The authorization gate and the login flow *)

Section GateProperties.
Variable ADMIN_EMAIL : string.
Variable JWT_SECRET : string.
Variable HS256 : string -> jwt_claims -> string.



Lemma issued_token_accepted (issued_at now : datetime) :
  now + 1000000 <= issued_at + 604800000000 ->
  get_current_admin ADMIN_EMAIL JWT_SECRET HS256 now
    (create_jwt_token JWT_SECRET HS256 issued_at ADMIN_EMAIL) = Ok ADMIN_EMAIL.
Proof.
  intros Hnow. unfold get_current_admin.
  rewrite verify_issued_token.
  pose proof (numeric_date_bounds (issued_at + timedelta_days 7)) as Hb.
  unfold timedelta_days, microseconds_per_second in *.
  destruct (Z.leb_spec ((issued_at + 7 * 86400 * 1000000) / 1000000 * 1000000) now);
    [lia|].
  now rewrite String.eqb_refl.
Qed.

Lemma verify_after_send_otp randint now_created now_expiry sendgrid_ok now
    now_token db :
  now <= now_expiry + 600000000 ->
  verify_otp ADMIN_EMAIL JWT_SECRET HS256 now now_token
    (mkVerifyOTPRequest ADMIN_EMAIL (generate_otp randint))
    (snd (send_otp ADMIN_EMAIL randint now_created now_expiry sendgrid_ok
            (mkSendOTPRequest ADMIN_EMAIL) db)) =
    (Ok {| token := create_jwt_token JWT_SECRET HS256 now_token ADMIN_EMAIL;
           email := ADMIN_EMAIL |},
     mkDb (menu_items db)
       (Collection.delete_many (by_email ADMIN_EMAIL) (otp_verifications db))).
Proof.
  intros Hnow. rewrite send_otp_admin. cbn [snd]. unfold Collection.insert_one.
  change (generate_otp randint)
    with (otp (new_otp_doc ADMIN_EMAIL (generate_otp randint) now_created now_expiry))
    at 1.
  rewrite verify_otp_right_code.
  - now rewrite app_nil_r.
  - reflexivity.
  - intros x. apply delete_many_none.
  - cbn. unfold timedelta_minutes, microseconds_per_second. lia.
Qed.

(** X17.  The whole login: a [send_otp] for the administrator (whether or
    not the e-mail went out), then a [verify_otp] with the generated code no
    later than ten minutes after the request's second clock reading, yields
    a token that [get_current_admin] accepts as the administrator at every
    instant up to one second before seven days after issuance; an admin
    route called with it runs its body. *)
Theorem login_flow_authorizes_admin (db : Db) (randint : Z -> Z -> Z)
    (now_created now_expiry now now_token later : datetime) (sendgrid_ok : bool)
    (A : Type) (body : string -> handler A) :
  now <= now_expiry + 600000000 ->
  later + 1000000 <= now_token + 604800000000 ->
  let requested :=
    snd (send_otp ADMIN_EMAIL randint now_created now_expiry sendgrid_ok
           (mkSendOTPRequest ADMIN_EMAIL) db) in
  exists response db',
    verify_otp ADMIN_EMAIL JWT_SECRET HS256 now now_token
      (mkVerifyOTPRequest ADMIN_EMAIL (generate_otp randint)) requested =
      (Ok response, db') /\
    email response = ADMIN_EMAIL /\
    get_current_admin ADMIN_EMAIL JWT_SECRET HS256 later (token response) =
      Ok ADMIN_EMAIL /\
    admin_route ADMIN_EMAIL JWT_SECRET HS256 later (token response) body db' =
      body ADMIN_EMAIL db'.
Proof.
  intros Hnow Hlater requested. subst requested.
  eexists _, _. split; [now apply verify_after_send_otp|].
  cbn [email token]. split; [reflexivity|].
  assert (Hok := issued_token_accepted now_token later Hlater).
  split; [exact Hok|].
  unfold admin_route. now rewrite Hok.
Qed.

(** X18.  A newer request supersedes the older code: after two [send_otp]
    requests whose codes differ, verifying with the first code is answered
    400 ("Invalid OTP") and changes nothing, while the second code is still
    accepted. *)
Theorem newer_request_supersedes_code (db : Db) (randint1 randint2 : Z -> Z -> Z)
    (created1 expiry1 created2 expiry2 now now_token : datetime)
    (sent1 sent2 : bool) :
  generate_otp randint1 <> generate_otp randint2 ->
  now <= expiry2 + 600000000 ->
  let request := mkSendOTPRequest ADMIN_EMAIL in
  let twice :=
    snd (send_otp ADMIN_EMAIL randint2 created2 expiry2 sent2 request
           (snd (send_otp ADMIN_EMAIL randint1 created1 expiry1 sent1 request db))) in
  verify_otp ADMIN_EMAIL JWT_SECRET HS256 now now_token
    (mkVerifyOTPRequest ADMIN_EMAIL (generate_otp randint1)) twice =
    (Raise (HTTPException 400 "Invalid OTP"), twice) /\
  fst (verify_otp ADMIN_EMAIL JWT_SECRET HS256 now now_token
         (mkVerifyOTPRequest ADMIN_EMAIL (generate_otp randint2)) twice) =
    Ok {| token := create_jwt_token JWT_SECRET HS256 now_token ADMIN_EMAIL;
          email := ADMIN_EMAIL |}.
Proof.
  intros Hcodes Hnow request twice. split.
  - subst twice request. rewrite (send_otp_admin ADMIN_EMAIL randint2).
    cbn [snd]. unfold Collection.insert_one.
    apply verify_otp_wrong_code.
    + reflexivity.
    + intros x. apply delete_many_none.
    + cbn. unfold timedelta_minutes, microseconds_per_second. lia.
    + exact Hcodes.
  - subst twice request. now rewrite verify_after_send_otp.
Qed.

Lemma wrong_attempts_run (items : list MenuItem) (before after : list OTPDoc)
    (doc : OTPDoc) (attempts : list (datetime * datetime * string)) :
  otp_email doc = ADMIN_EMAIL ->
  (forall x, In x before -> otp_email x <> ADMIN_EMAIL) ->
  Forall (fun a => fst (fst a) <= expires_at doc /\ snd a <> otp doc) attempts ->
  verify_attempts ADMIN_EMAIL JWT_SECRET HS256 attempts
    (mkDb items (before ++ doc :: after)) =
    (map (fun _ => Raise (HTTPException 400 "Invalid OTP")) attempts,
     mkDb items (before ++ doc :: after)).
Proof.
  intros Hemail Hfirst Hall.
  induction Hall as [|[[now now_token] code] attempts [Hnow Hcode] _ IH]; cbn;
    [reflexivity|].
  cbn in Hnow, Hcode.
  rewrite (verify_otp_wrong_code ADMIN_EMAIL JWT_SECRET HS256 items before after doc
             Hemail Hfirst now now_token code Hnow Hcode).
  now rewrite IH.
Qed.

(** X19.  Wrong codes are never counted: any number of [verify_otp] attempts
    with codes other than the stored one, made before the challenge expires,
    are each answered 400 ("Invalid OTP") and leave the store exactly as it
    was, so the stored code is still accepted afterwards. *)
Theorem wrong_attempts_are_not_limited (items : list MenuItem)
    (before after : list OTPDoc) (doc : OTPDoc)
    (attempts : list (datetime * datetime * string))
    (now now_token : datetime) :
  otp_email doc = ADMIN_EMAIL ->
  (forall x, In x before -> otp_email x <> ADMIN_EMAIL) ->
  Forall (fun a => fst (fst a) <= expires_at doc /\ snd a <> otp doc) attempts ->
  now <= expires_at doc ->
  let db := mkDb items (before ++ doc :: after) in
  let tried := verify_attempts ADMIN_EMAIL JWT_SECRET HS256 attempts db in
  fst tried = map (fun _ => Raise (HTTPException 400 "Invalid OTP")) attempts /\
  snd tried = db /\
  fst (verify_otp ADMIN_EMAIL JWT_SECRET HS256 now now_token
         (mkVerifyOTPRequest ADMIN_EMAIL (otp doc)) (snd tried)) =
    Ok {| token := create_jwt_token JWT_SECRET HS256 now_token ADMIN_EMAIL;
          email := ADMIN_EMAIL |}.
Proof.
  intros Hemail Hfirst Hall Hnow db tried. subst tried db.
  rewrite (wrong_attempts_run items before after doc attempts Hemail Hfirst Hall).
  cbn [fst snd]. split; [reflexivity|]. split; [reflexivity|].
  now rewrite verify_otp_right_code.
Qed.

(** X20.  The code of a request is accepted up to and including the instant
    ten minutes after the request's second clock reading, and from the next
    microsecond on the attempt is answered 400 ("OTP has expired"), the
    challenge is deleted and even the right code then gets 404. *)
Theorem otp_validity_window (db : Db) (randint : Z -> Z -> Z)
    (now_created now_expiry now now_token later later_token : datetime)
    (sendgrid_ok : bool) (code : string) :
  let requested :=
    snd (send_otp ADMIN_EMAIL randint now_created now_expiry sendgrid_ok
           (mkSendOTPRequest ADMIN_EMAIL) db) in
  let deadline := now_expiry + 600000000 in
  (now <= deadline ->
   fst (verify_otp ADMIN_EMAIL JWT_SECRET HS256 now now_token
          (mkVerifyOTPRequest ADMIN_EMAIL (generate_otp randint)) requested) =
     Ok {| token := create_jwt_token JWT_SECRET HS256 now_token ADMIN_EMAIL;
           email := ADMIN_EMAIL |}) /\
  (deadline < now ->
   let late :=
     verify_otp ADMIN_EMAIL JWT_SECRET HS256 now now_token
       (mkVerifyOTPRequest ADMIN_EMAIL code) requested in
   fst late = Raise (HTTPException 400 "OTP has expired") /\
   verify_otp ADMIN_EMAIL JWT_SECRET HS256 later later_token
     (mkVerifyOTPRequest ADMIN_EMAIL (generate_otp randint)) (snd late) =
     (Raise (HTTPException 404 "OTP not found or expired"), snd late)).
Proof.
  intros requested deadline. split.
  - intros Hin. subst requested deadline.
    rewrite verify_after_send_otp; [reflexivity | exact Hin].
  - intros Hlate late. subst late requested deadline.
    rewrite send_otp_admin. cbn [snd]. unfold Collection.insert_one.
    rewrite verify_otp_expired.
    + cbn [fst snd]. split; [reflexivity|].
      apply verify_otp_no_challenge. cbn [otp_verifications].
      rewrite app_nil_r. intros x. apply delete_many_none.
    + reflexivity.
    + intros x. apply delete_many_none.
    + cbn. unfold timedelta_minutes, microseconds_per_second. lia.
Qed.

(** X21.  Without a stored challenge for the administrator (none requested
    yet, or the last one consumed), [verify_otp] answers 404 whatever the
    code and the time, and changes nothing; in particular no code is
    accepted before a [send_otp]. *)
Theorem verify_without_challenge_not_found (db : Db) (now now_token : datetime)
    (code : string) :
  (forall x, In x (otp_verifications db) -> otp_email x <> ADMIN_EMAIL) ->
  verify_otp ADMIN_EMAIL JWT_SECRET HS256 now now_token
    (mkVerifyOTPRequest ADMIN_EMAIL code) db =
    (Raise (HTTPException 404 "OTP not found or expired"), db).
Proof.
  apply verify_otp_no_challenge.
Qed.

End GateProperties.

(** ** The generated code *)

Lemma decimal_digit_cases (k : N) :
  (k < 10)%N ->
  k = 0%N \/ k = 1%N \/ k = 2%N \/ k = 3%N \/ k = 4%N \/
  k = 5%N \/ k = 6%N \/ k = 7%N \/ k = 8%N \/ k = 9%N.
Proof. lia. Qed.

Ltac each_digit k H :=
  destruct (decimal_digit_cases k H)
    as [->|[->|[->|[->|[->|[->|[->|[->|[->| ->]]]]]]]]].

Lemma of_lu_decimal_digit k rest :
  (k < 10)%N ->
  DecimalPos.Unsigned.of_lu (decimal_digit k rest) =
    (k + 10 * DecimalPos.Unsigned.of_lu rest)%N.
Proof. intros H. each_digit k H; reflexivity. Qed.

Lemma revapp_decimal_digit k rest acc :
  (k < 10)%N ->
  Decimal.revapp (decimal_digit k rest) acc =
    Decimal.revapp rest (decimal_digit k acc).
Proof. intros H. each_digit k H; reflexivity. Qed.

Lemma unorm_decimal_digit k rest :
  (0 < k < 10)%N -> Decimal.unorm (decimal_digit k rest) = decimal_digit k rest.
Proof. intros [H0 H]. each_digit k H; try reflexivity. lia. Qed.

Lemma string_of_decimal_digit k rest :
  (k < 10)%N ->
  NilEmpty.string_of_uint (decimal_digit k rest) =
    String (digit_char k) (NilEmpty.string_of_uint rest).
Proof. intros H. each_digit k H; reflexivity. Qed.

Lemma decimal_digit_nonnil k rest : decimal_digit k rest <> Decimal.Nil.
Proof.
  destruct k as [|p]; [discriminate|]. cbn.
  repeat (destruct p as [p|p|]; try discriminate).
Qed.

Lemma nilzero_nonnil (d : Decimal.uint) :
  d <> Decimal.Nil -> NilZero.string_of_uint d = NilEmpty.string_of_uint d.
Proof. destruct d; [congruence | reflexivity..]. Qed.

Lemma str_six_digits (r : Z) :
  100000 <= r <= 999999 ->
  exists k5 k4 k3 k2 k1 k0 : N,
    (0 < k5 < 10 /\ k4 < 10 /\ k3 < 10 /\ k2 < 10 /\ k1 < 10 /\ k0 < 10)%N /\
    r = Z.of_N (100000 * k5 + 10000 * k4 + 1000 * k3 + 100 * k2 + 10 * k1 + k0) /\
    str r =
      String (digit_char k5) (String (digit_char k4) (String (digit_char k3)
        (String (digit_char k2) (String (digit_char k1)
          (String (digit_char k0) EmptyString))))).
Proof.
  intros Hr.
  destruct r as [|p|p]; try lia.
  set (n := Npos p).
  assert (Hn : (100000 <= n <= 999999)%N) by (subst n; lia).
  exists (n / 100000)%N, (n / 10000 mod 10)%N, (n / 1000 mod 10)%N,
         (n / 100 mod 10)%N, (n / 10 mod 10)%N, (n mod 10)%N.
  set (k5 := (n / 100000)%N). set (k4 := (n / 10000 mod 10)%N).
  set (k3 := (n / 1000 mod 10)%N). set (k2 := (n / 100 mod 10)%N).
  set (k1 := (n / 10 mod 10)%N). set (k0 := (n mod 10)%N).
  assert (Hk : (0 < k5 < 10 /\ k4 < 10 /\ k3 < 10 /\ k2 < 10 /\ k1 < 10 /\ k0 < 10)%N).
  { subst k5 k4 k3 k2 k1 k0.
    repeat split; try (apply N.mod_lt; lia).
    - apply N.div_str_pos. lia.
    - apply N.Div0.div_lt_upper_bound. lia. }
  assert (Hval : (n = 100000 * k5 + 10000 * k4 + 1000 * k3 + 100 * k2 + 10 * k1 + k0)%N).
  { subst k5 k4 k3 k2 k1 k0.
    pose proof (N.div_mod n 10 ltac:(lia)) as E0.
    pose proof (N.div_mod (n / 10) 10 ltac:(lia)) as E1.
    pose proof (N.div_mod (n / 100) 10 ltac:(lia)) as E2.
    pose proof (N.div_mod (n / 1000) 10 ltac:(lia)) as E3.
    pose proof (N.div_mod (n / 10000) 10 ltac:(lia)) as E4.
    rewrite (N.Div0.div_div n 10 10) in E1.
    rewrite (N.Div0.div_div n 100 10) in E2.
    rewrite (N.Div0.div_div n 1000 10) in E3.
    rewrite (N.Div0.div_div n 10000 10) in E4.
    change (10 * 10)%N with 100%N in E1. change (100 * 10)%N with 1000%N in E2.
    change (1000 * 10)%N with 10000%N in E3.
    change (10000 * 10)%N with 100000%N in E4.
    lia. }
  split; [exact Hk|]. split; [subst n; lia|].
  destruct Hk as ([H5a H5] & H4 & H3 & H2 & H1 & H0).
  set (be := decimal_digit k5 (decimal_digit k4 (decimal_digit k3
               (decimal_digit k2 (decimal_digit k1 (decimal_digit k0 Decimal.Nil)))))).
  assert (Hbe : Pos.of_uint be = n).
  { rewrite DecimalPos.Unsigned.of_uint_alt. unfold Decimal.rev, be.
    rewrite !revapp_decimal_digit by assumption. cbn [Decimal.revapp].
    rewrite !of_lu_decimal_digit by assumption.
    cbn [DecimalPos.Unsigned.of_lu]. lia. }
  assert (Hto : Pos.to_uint p = be).
  { change (Pos.to_uint p) with (N.to_uint n). rewrite <- Hbe.
    rewrite DecimalPos.Unsigned.to_of. unfold be. apply unorm_decimal_digit. lia. }
  unfold str, Z.to_int, NilZero.string_of_int.
  rewrite Hto, nilzero_nonnil by apply decimal_digit_nonnil.
  unfold be. now rewrite !string_of_decimal_digit by assumption.
Qed.

Lemma str_injective (r r' : Z) : str r = str r' -> r = r'.
Proof.
  assert (Hnonnil : forall z, Z.to_int z <> Decimal.Pos Decimal.Nil /\
                              Z.to_int z <> Decimal.Neg Decimal.Nil).
  { intros [|p|p]; cbn; split; try discriminate;
      intros [= H]; now apply (DecimalPos.Unsigned.to_uint_nonnil p). }
  intros Heq. apply DecimalZ.to_int_inj.
  assert (Hparse : NilZero.int_of_string (str r) = NilZero.int_of_string (str r'))
    by now rewrite Heq.
  unfold str in Hparse.
  rewrite !NilZero.isi in Hparse by apply Hnonnil.
  congruence.
Qed.

(** X22.  For a draw within the bounds [generate_otp] asks for (100000 to
    999999), the code is the six-character decimal writing of the draw:
    six digit characters, the first not "0".  Two calls give the same code
    only when they drew the same number. *)
Theorem generate_otp_six_digits (randint : Z -> Z -> Z) :
  100000 <= randint 100000 999999 <= 999999 ->
  (exists k5 k4 k3 k2 k1 k0 : N,
     (0 < k5 < 10 /\ k4 < 10 /\ k3 < 10 /\ k2 < 10 /\ k1 < 10 /\ k0 < 10)%N /\
     randint 100000 999999 =
       Z.of_N (100000 * k5 + 10000 * k4 + 1000 * k3 + 100 * k2 + 10 * k1 + k0) /\
     generate_otp randint =
       String (digit_char k5) (String (digit_char k4) (String (digit_char k3)
         (String (digit_char k2) (String (digit_char k1)
           (String (digit_char k0) EmptyString)))))) /\
  String.length (generate_otp randint) = 6%nat /\
  (forall randint' : Z -> Z -> Z,
     generate_otp randint' = generate_otp randint ->
     randint' 100000 999999 = randint 100000 999999).
Proof.
  intros Hdraw.
  destruct (str_six_digits _ Hdraw) as (k5 & k4 & k3 & k2 & k1 & k0 & Hk & Hval & Hstr).
  split; [now exists k5, k4, k3, k2, k1, k0|].
  split; [unfold generate_otp; now rewrite Hstr|].
  intros randint'. apply str_injective.
Qed.

(** * Concrete runs *)

Lemma listing_capped_at_1000_witness :
  (1000 < List.length (menu_items big_catalogue))%nat /\
  exists l_menu l_specials l_all,
    get_menu big_catalogue = (Ok l_menu, big_catalogue) /\
    get_specials big_catalogue = (Ok l_specials, big_catalogue) /\
    get_all_menu_items "admin@cafe.example" big_catalogue = (Ok l_all, big_catalogue) /\
    List.length l_menu = 1000%nat /\
    List.length l_specials = 1000%nat /\
    List.length l_all = 1000%nat /\
    l_all <> menu_items big_catalogue.
Proof.
  assert (Hbig : (1000 < List.length (menu_items big_catalogue))%nat).
  { apply Nat.ltb_lt. vm_compute. reflexivity. }
  split; [exact Hbig|].
  destruct (listing_capped_at_1000 big_catalogue "admin@cafe.example")
    as (l_menu & l_specials & l_all & Hm & Hs & Ha & _ & _ & _ & _ & _ & _ & Tm & Ts & Ta).
  exists l_menu, l_specials, l_all.
  destruct Tm as [Tm _]; [apply Nat.ltb_lt; vm_compute; reflexivity|].
  destruct Ts as [Ts _]; [apply Nat.ltb_lt; vm_compute; reflexivity|].
  destruct (Ta Hbig) as [Ta1 Ta2].
  repeat split; assumption.
Defined.

(** C1, as stated, fails: a create input with an empty name, an empty
    category and a negative price is accepted and stored, and an update
    carrying an empty name and a negative price is applied. *)
Lemma create_accepts_blank_negative_input :
  let run := create_menu_item "id-0" 0 blank_negative_create sample_admin empty_store in
  let upd := update_menu_item "item-1" blank_negative_update sample_admin one_item_store in
  new_name blank_negative_create = "" /\
  new_category blank_negative_create = "" /\
  PrimFloat.ltb (new_price blank_negative_create) 0%float = true /\
  (forall e, fst run <> Raise e) /\
  snd run <> empty_store /\
  List.length (menu_items (snd run)) = 1%nat /\
  (forall e, fst upd <> Raise e) /\
  (exists d, menu_items (snd upd) = [d] /\ name d = "" /\
             PrimFloat.ltb (price d) 0%float = true).
Proof.
  cbv zeta.
  split; [reflexivity|]. split; [reflexivity|]. split; [reflexivity|].
  split; [intros e; vm_compute; discriminate|].
  split; [vm_compute; discriminate|].
  split; [reflexivity|].
  split; [intros e; vm_compute; discriminate|].
  eexists. split; [vm_compute; reflexivity|]. split; reflexivity.
Qed.

Lemma create_and_update_accept_any_values_witness :
  (exists m,
     create_menu_item "id-0" 0 blank_negative_create sample_admin one_item_store =
       (Ok m, {| menu_items := menu_items one_item_store ++ [m];
                 otp_verifications := [] |}) /\
     name m = "" /\ category m = "" /\ price m = (-5)%float) /\
  (exists d',
     update_menu_item "item-1" blank_negative_update sample_admin one_item_store =
       (Ok d', {| menu_items := [d']; otp_verifications := [] |}) /\
     name d' = "" /\ price d' = (-5)%float).
Proof.
  destruct (create_and_update_accept_any_values sample_admin one_item_store)
    as [Hcreate Hupdate].
  split.
  - destruct (Hcreate "id-0" 0 blank_negative_create false true eq_refl eq_refl)
      as (m & Hrun & _ & _ & Hc & Hn & Hp & _).
    exists m. split; [exact Hrun|]. split; [exact Hn|]. split; [exact Hc | exact Hp].
  - destruct (Hupdate "item-1" blank_negative_update [] sample_item [] eq_refl eq_refl)
      as (d' & Hrun & _ & Hn & Hp).
    + intros x [].
    + exists d'. split; [exact Hrun|]. split; [exact Hn | exact Hp].
Defined.

Lemma update_menu_item_partial_witness :
  update_menu_item "no-such-id" blank_negative_update sample_admin one_item_store =
    (Raise (HTTPException 404 "Menu item not found"), one_item_store) /\
  (exists d',
     update_menu_item "item-1" blank_negative_update sample_admin one_item_store =
       (Ok d', {| menu_items := [d']; otp_verifications := [] |}) /\
     id d' = "item-1" /\ created_at d' = 0 /\ category d' = "Lassi" /\
     name d' = "" /\ is_special d' = true /\ available d' = true).
Proof.
  split.
  - apply (proj1 (update_menu_item_partial "no-such-id" sample_admin
                    blank_negative_update one_item_store)).
    intros x [<-|[]]. discriminate.
  - destruct (proj2 (update_menu_item_partial "item-1" sample_admin
                       blank_negative_update one_item_store)
                [] sample_item [] eq_refl eq_refl)
      as (d' & Hrun & Hid & Hcreated & Hc & Hn & _ & _ & Hs & Ha & _).
    + intros x [].
    + exists d'. split; [exact Hrun|].
      split; [exact Hid|]. split; [exact Hcreated|]. split; [exact Hc|].
      split; [exact Hn|]. split; [exact Hs | exact Ha].
Defined.

Lemma toggles_flip_one_flag_witness :
  toggle_special "no-such-id" sample_admin one_item_store =
    (Raise (HTTPException 404 "Menu item not found"), one_item_store) /\
  toggle_available "no-such-id" sample_admin one_item_store =
    (Raise (HTTPException 404 "Menu item not found"), one_item_store) /\
  fst (toggle_special "item-1" sample_admin one_item_store) = Ok false /\
  fst (toggle_available "item-1" sample_admin one_item_store) = Ok false /\
  toggle_special "item-1" sample_admin
    (snd (toggle_special "item-1" sample_admin one_item_store)) =
    (Ok true, one_item_store) /\
  toggle_available "item-1" sample_admin
    (snd (toggle_available "item-1" sample_admin one_item_store)) =
    (Ok true, one_item_store).
Proof.
  destruct (toggles_flip_one_flag "no-such-id" sample_admin) as [Hunknown _].
  destruct (Hunknown one_item_store) as [Hs Ha].
  { intros x [<-|[]]. discriminate. }
  destruct (toggles_flip_one_flag "item-1" sample_admin) as [_ Hpresent].
  destruct (Hpresent [] [] sample_item [] eq_refl) as (Ts & Ta & Tss & Taa).
  { intros x []. }
  split; [exact Hs|]. split; [exact Ha|].
  split; [exact (f_equal fst Ts)|]. split; [exact (f_equal fst Ta)|].
  split; [exact Tss | exact Taa].
Defined.

(** C4, as stated, fails on its last part: with the two clock readings of
    one request one microsecond apart, the stored challenge expires one
    microsecond later than ten minutes after its [created_at]. *)
Lemma expiry_is_not_created_plus_ten_minutes :
  let run := send_otp sample_admin sample_randint 0 1 true
               (mkSendOTPRequest sample_admin) empty_store in
  fst run = Ok ("OTP sent successfully", sample_admin) /\
  exists d,
    otp_verifications (snd run) = [d] /\
    otp_email d = sample_admin /\
    otp_created_at d = 0 /\
    expires_at d = 600000001 /\
    expires_at d <> otp_created_at d + timedelta_minutes 10.
Proof.
  cbv zeta. split; [reflexivity|].
  eexists. split; [vm_compute; reflexivity|].
  split; [reflexivity|]. split; [reflexivity|]. split; [reflexivity|].
  vm_compute. discriminate.
Qed.

Lemma wrong_code_keeps_challenge_witness :
  verify_otp sample_admin sample_secret sample_hs256 1 2
    (mkVerifyOTPRequest sample_admin "000000") challenge_store =
    (Raise (HTTPException 400 "Invalid OTP"), challenge_store) /\
  verify_otp sample_admin sample_secret sample_hs256 3 4
    (mkVerifyOTPRequest sample_admin "100000") challenge_store =
    (Ok {| token := create_jwt_token sample_secret sample_hs256 4 sample_admin;
           email := sample_admin |}, empty_store).
Proof.
  destruct (wrong_code_keeps_challenge sample_admin sample_secret sample_hs256
              [] [] [] sample_challenge 1 2 3 4 "000000") as [Hwrong Hright].
  - reflexivity.
  - intros x [].
  - vm_compute. discriminate.
  - vm_compute. discriminate.
  - vm_compute. discriminate.
  - cbv zeta in Hwrong, Hright. split; [exact Hwrong|].
    rewrite Hwrong in Hright. exact Hright.
Defined.

Lemma verify_consumes_challenge_witness :
  (fst (verify_otp sample_admin sample_secret sample_hs256 1 2
          (mkVerifyOTPRequest sample_admin "100000") challenge_store) =
     Ok {| token := create_jwt_token sample_secret sample_hs256 2 sample_admin;
           email := sample_admin |} /\
   verify_otp sample_admin sample_secret sample_hs256 3 4
     (mkVerifyOTPRequest sample_admin "100000")
     (snd (verify_otp sample_admin sample_secret sample_hs256 1 2
             (mkVerifyOTPRequest sample_admin "100000") challenge_store)) =
     (Raise (HTTPException 404 "OTP not found or expired"),
      snd (verify_otp sample_admin sample_secret sample_hs256 1 2
             (mkVerifyOTPRequest sample_admin "100000") challenge_store))) /\
  (fst (verify_otp sample_admin sample_secret sample_hs256 600000001 600000002
          (mkVerifyOTPRequest sample_admin "100000") challenge_store) =
     Raise (HTTPException 400 "OTP has expired") /\
   verify_otp sample_admin sample_secret sample_hs256 600000003 600000004
     (mkVerifyOTPRequest sample_admin "100000")
     (snd (verify_otp sample_admin sample_secret sample_hs256 600000001 600000002
             (mkVerifyOTPRequest sample_admin "100000") challenge_store)) =
     (Raise (HTTPException 404 "OTP not found or expired"),
      snd (verify_otp sample_admin sample_secret sample_hs256 600000001 600000002
             (mkVerifyOTPRequest sample_admin "100000") challenge_store))).
Proof.
  assert (Hsingle : (Collection.count (by_email sample_admin)
                       (otp_verifications challenge_store) <= 1)%nat)
    by (vm_compute; apply le_n).
  assert (Hin : In sample_challenge (otp_verifications challenge_store))
    by (left; reflexivity).
  split.
  - destruct (verify_consumes_challenge sample_admin sample_secret sample_hs256
                challenge_store sample_challenge 1 2 "100000" Hsingle Hin eq_refl)
      as [Hok _].
    destruct Hok as (Hrun & _ & Hlater);
      [vm_compute; discriminate | reflexivity |].
    split; [exact Hrun | apply Hlater].
  - destruct (verify_consumes_challenge sample_admin sample_secret sample_hs256
                challenge_store sample_challenge 600000001 600000002 "100000"
                Hsingle Hin eq_refl)
      as [_ Hexpired].
    destruct Hexpired as (Hrun & _ & Hlater); [vm_compute; reflexivity|].
    split; [exact Hrun | apply Hlater].
Defined.

Lemma other_emails_forbidden_witness :
  send_otp sample_admin sample_randint 0 0 true
    (mkSendOTPRequest "guest@cafe.example") challenge_store =
    (Raise (HTTPException 403 "Email not authorized"), challenge_store) /\
  verify_otp sample_admin sample_secret sample_hs256 1 2
    (mkVerifyOTPRequest "guest@cafe.example" "100000") challenge_store =
    (Raise (HTTPException 403 "Email not authorized"), challenge_store).
Proof.
  destruct (other_emails_forbidden sample_admin sample_secret sample_hs256
              "guest@cafe.example") as (Hsend & Hverify & _).
  - vm_compute. discriminate.
  - split; [apply Hsend | apply Hverify].
Defined.

Lemma email_failure_keeps_challenge_witness :
  let failed := send_otp sample_admin sample_randint 0 0 false
                  (mkSendOTPRequest sample_admin) empty_store in
  fst failed = Raise (HTTPException 500 "Failed to send OTP email") /\
  snd failed = challenge_store /\
  fst (verify_otp sample_admin sample_secret sample_hs256 1 2
         (mkVerifyOTPRequest sample_admin "100000") (snd failed)) =
    Ok {| token := create_jwt_token sample_secret sample_hs256 2 sample_admin;
          email := sample_admin |}.
Proof.
  destruct (email_failure_keeps_challenge sample_admin sample_secret sample_hs256
              empty_store sample_randint 0 0 1 2)
    as (Hfail & _ & _ & _ & Hverify).
  - vm_compute. discriminate.
  - cbv zeta. split; [exact Hfail|]. split; [reflexivity | exact Hverify].
Defined.

(** C6, as stated, fails: a token issued at half a second past the epoch
    carries the expiry 604800 s, not issuance plus seven days, and is answered
    "Token has expired" a tenth of a second before seven days from issuance
    are over. *)
Lemma token_expires_before_seven_days :
  let tok := create_jwt_token sample_secret sample_hs256 500000 sample_admin in
  let seven_days_on := 500000 + timedelta_days 7 in
  604800400000 < seven_days_on /\
  verify_jwt_token sample_secret sample_hs256 604800400000 tok =
    Raise (HTTPException 401 "Token has expired") /\
  verify_jwt_token sample_secret sample_hs256 604800400000 tok <>
    Ok (StrValue sample_admin) /\
  exists claims signature exp,
    tok = Signed claims signature /\
    claim_exp claims = Some exp /\
    exp * microseconds_per_second <> seven_days_on.
Proof.
  cbv zeta. split; [reflexivity|]. split; [reflexivity|].
  split; [vm_compute; discriminate|].
  eexists _, _, _. split; [reflexivity|]. split; [reflexivity|].
  vm_compute. discriminate.
Qed.

Lemma session_token_round_trip_witness :
  let tok := create_jwt_token sample_secret sample_hs256 500000 sample_admin in
  verify_jwt_token sample_secret sample_hs256 604799999999 tok =
    Ok (StrValue sample_admin) /\
  verify_jwt_token sample_secret sample_hs256 604800000000 tok =
    Raise (HTTPException 401 "Token has expired") /\
  verify_jwt_token sample_secret sample_hs256 604799500000 tok =
    Ok (StrValue sample_admin) /\
  verify_jwt_token sample_secret sample_hs256 604800500000 tok =
    Raise (HTTPException 401 "Token has expired") /\
  verify_jwt_token sample_secret sample_hs256 0
    (Signed (mkClaims (Some (StrValue sample_admin)) (Some 604800)) "forged") =
    Raise (HTTPException 401 "Invalid token") /\
  verify_jwt_token sample_secret sample_hs256 0
    (jwt_encode sample_hs256 sample_admin 604800500000 "another-secret") =
    Raise (HTTPException 401 "Invalid token") /\
  verify_jwt_token sample_secret sample_hs256 604800000001
    (Signed (mkClaims (Some (StrValue sample_admin)) (Some 604800))
       (sample_hs256 sample_secret
          (mkClaims (Some (StrValue sample_admin)) (Some 604800)))) =
    Raise (HTTPException 401 "Token has expired").
Proof.
  destruct (session_token_round_trip sample_secret sample_hs256 sample_admin 500000)
    as (_ & _ & Hvalid & Hexpired & Hmargin & Hover & _ & Hforged & Hkey & Hpassed).
  cbv zeta.
  split; [apply Hvalid; vm_compute; reflexivity|].
  split; [apply Hexpired; vm_compute; discriminate|].
  split; [apply Hmargin; vm_compute; discriminate|].
  split; [apply Hover; vm_compute; discriminate|].
  split; [apply Hforged; vm_compute; discriminate|].
  split; [apply Hkey; vm_compute; discriminate|].
  apply (Hpassed 604800000001 _ 604800); [reflexivity | vm_compute; discriminate].
Defined.

Lemma tally_injective (i j : nat) : tally i = tally j -> i = j.
Proof.
  revert j. induction i as [|i IH]; intros [|j]; cbn; try discriminate.
  - reflexivity.
  - intros [= H]. f_equal. now apply IH.
Qed.

Lemma delete_menu_item_removes_one_witness :
  delete_menu_item "item-9" sample_admin two_item_store =
    (Raise (HTTPException 404 "Menu item not found"), two_item_store) /\
  delete_menu_item "item-2" sample_admin two_item_store =
    (Ok "Menu item deleted successfully", mkDb [sample_item] [sample_challenge]).
Proof.
  split.
  - apply (proj1 (delete_menu_item_removes_one "item-9" sample_admin)).
    intros x [<-|[<-|[]]]; discriminate.
  - apply (proj2 (delete_menu_item_removes_one "item-2" sample_admin)
             [sample_challenge] [sample_item] second_item []).
    + reflexivity.
    + intros x [<-|[]]. discriminate.
Defined.

Lemma create_then_delete_restores_witness :
  delete_menu_item "item-3" sample_admin
    (snd (create_menu_item "item-3" 7 plain_create sample_admin two_item_store)) =
    (Ok "Menu item deleted successfully", two_item_store).
Proof.
  apply (create_then_delete_restores "item-3" sample_admin 7 plain_create
           two_item_store false true eq_refl eq_refl).
  intros x [<-|[<-|[]]]; discriminate.
Defined.

Lemma admin_writes_keep_ids_unique_witness :
  NoDup (map id (menu_items
    (snd (create_menu_item "item-3" 7 plain_create sample_admin two_item_store)))) /\
  NoDup (map id (menu_items
    (snd (update_menu_item "item-1" blank_negative_update sample_admin two_item_store)))) /\
  NoDup (map id (menu_items
    (snd (delete_menu_item "item-1" sample_admin two_item_store)))).
Proof.
  assert (Hnd : NoDup (map id (menu_items two_item_store))).
  { cbn. constructor; [intros [H|[]]; discriminate H|].
    constructor; [intros []|constructor]. }
  destruct (admin_writes_keep_ids_unique two_item_store Hnd)
    as (Hcreate & Hupdate & Hrest).
  split; [|split].
  - apply Hcreate. intros x [<-|[<-|[]]]; discriminate.
  - apply Hupdate.
  - apply (Hrest "item-1" sample_admin).
Defined.

Lemma deleted_id_is_gone_witness :
  let db' := snd (delete_menu_item "item-1" sample_admin two_item_store) in
  delete_menu_item "item-1" sample_admin db' =
    (Raise (HTTPException 404 "Menu item not found"), db') /\
  toggle_special "item-1" sample_admin db' =
    (Raise (HTTPException 404 "Menu item not found"), db').
Proof.
  assert (Hnd : NoDup (map id (menu_items two_item_store))).
  { cbn. constructor; [intros [H|[]]; discriminate H|].
    constructor; [intros []|constructor]. }
  destruct (deleted_id_is_gone "item-1" sample_admin blank_negative_update
              two_item_store Hnd) as (_ & Hdel & _ & Hspecial & _).
  split; [exact Hdel | exact Hspecial].
Defined.

Lemma update_menu_item_without_fields_witness :
  update_menu_item "item-2" (mkMenuItemUpdate None None None None None None None)
    sample_admin two_item_store = (Ok second_item, two_item_store).
Proof.
  apply (update_menu_item_without_fields "item-2" sample_admin two_item_store
           [sample_item] [] second_item eq_refl eq_refl).
  intros x [<-|[]]. discriminate.
Defined.

Lemma created_item_listed_below_cap_witness :
  (exists m db' l,
     create_menu_item "item-3" 7 plain_create sample_admin two_item_store = (Ok m, db') /\
     get_all_menu_items sample_admin db' = (Ok l, db') /\
     l = [sample_item; second_item; m]) /\
  (exists m db' l,
     create_menu_item "item-3" 7 plain_create sample_admin full_catalogue = (Ok m, db') /\
     get_all_menu_items sample_admin db' = (Ok l, db') /\
     ~ In m l).
Proof.
  split.
  - destruct (created_item_listed_below_cap "item-3" sample_admin 7 plain_create
                two_item_store false true eq_refl eq_refl)
      as (m & db' & l & Hc & Hl & Hbelow & _).
    { intros x [<-|[<-|[]]]; discriminate. }
    exists m, db', l. split; [exact Hc|]. split; [exact Hl|].
    apply Hbelow. apply Nat.ltb_lt. reflexivity.
  - destruct (created_item_listed_below_cap "item-3" sample_admin 7 plain_create
                full_catalogue false true eq_refl eq_refl)
      as (m & db' & l & Hc & Hl & _ & Hfull).
    { intros x Hx. apply repeat_spec in Hx. subst x. discriminate. }
    exists m, db', l. split; [exact Hc|]. split; [exact Hl|].
    apply Hfull. apply Nat.leb_le. vm_compute. reflexivity.
Defined.

Lemma public_listings_show_available_items_witness :
  exists l_menu l_specials,
    get_menu two_item_store = (Ok l_menu, two_item_store) /\
    get_specials two_item_store = (Ok l_specials, two_item_store) /\
    In sample_item l_menu /\
    (forall d, In d l_specials -> In d l_menu).
Proof.
  destruct (public_listings_show_available_items two_item_store)
    as (l_menu & l_specials & Hm & Hs & _ & _ & Hall).
  destruct Hall as [Hlisted Hsub]; [apply Nat.leb_le; reflexivity|].
  exists l_menu, l_specials. split; [exact Hm|]. split; [exact Hs|].
  split; [|exact Hsub].
  apply Hlisted; [now left | reflexivity].
Defined.

Lemma unavailable_item_leaves_public_menu_witness :
  let db' := snd (toggle_available "item-1" sample_admin two_item_store) in
  exists l_menu l_specials,
    get_menu db' = (Ok l_menu, db') /\
    get_specials db' = (Ok l_specials, db') /\
    (forall x, In x l_menu -> id x <> "item-1") /\
    (forall x, In x l_specials -> id x <> "item-1").
Proof.
  apply (unavailable_item_leaves_public_menu "item-1" sample_admin
           [sample_challenge] [] [second_item] sample_item eq_refl eq_refl).
  cbn. constructor; [intros [H|[]]; discriminate H|].
  constructor; [intros []|constructor].
Defined.

Lemma get_categories_sorted_and_complete_witness :
  exists categories,
    get_categories two_item_store = (Ok categories, two_item_store) /\
    In "Falooda" categories /\
    fst (get_categories (mkDb [second_item; sample_item; sample_item] [])) =
      Ok categories.
Proof.
  destruct (get_categories_sorted_and_complete two_item_store)
    as (categories & Hrun & _ & _ & Hin & Hsame).
  exists categories. split; [exact Hrun|]. split.
  - apply Hin. exists second_item. split; [right; now left | reflexivity].
  - apply Hsame. intros c. split; intros (d & Hd & Hc); exists d; cbn in *; tauto.
Defined.

Lemma preload_only_seeds_empty_collection_witness :
  preload_menu_data tally sample_clock two_item_store = (Ok tt, two_item_store) /\
  preload_menu_data tally sample_clock
    (snd (preload_menu_data tally sample_clock empty_store)) =
    (Ok tt, snd (preload_menu_data tally sample_clock empty_store)).
Proof.
  split.
  - apply (proj1 (preload_only_seeds_empty_collection tally tally sample_clock
                    sample_clock two_item_store)).
    discriminate.
  - apply (proj2 (preload_only_seeds_empty_collection tally tally sample_clock
                    sample_clock empty_store)).
Defined.

Lemma preload_seeds_whole_table_witness :
  exists db',
    preload_menu_data tally sample_clock empty_store = (Ok tt, db') /\
    List.length (menu_items db') = 114%nat /\
    nth_error (menu_items db') 1 =
      Some (mkMenuItem "i" "Lassi" "Banana Lassi" 55%float
              (Some "Creamy banana lassi") false true (Some "") 1) /\
    NoDup (map id (menu_items db')).
Proof.
  destruct (preload_seeds_whole_table [] tally sample_clock sample_admin)
    as (db' & Hrun & _ & Hlen & Hnth & _ & _ & _ & Hnd).
  exists db'. split; [exact Hrun|]. split; [exact Hlen|]. split.
  - apply (Hnth 1%nat (mkSeed "Lassi" "Banana Lassi" 55%float "Creamy banana lassi")).
    reflexivity.
  - apply Hnd. exact tally_injective.
Defined.


Lemma login_flow_authorizes_admin_witness :
  exists response db',
    verify_otp sample_admin sample_secret sample_hs256 5 6
      (mkVerifyOTPRequest sample_admin "100000")
      (snd (send_otp sample_admin sample_randint 0 1 false
              (mkSendOTPRequest sample_admin) two_item_store)) =
      (Ok response, db') /\
    get_current_admin sample_admin sample_secret sample_hs256 7 (token response) =
      Ok sample_admin /\
    admin_route sample_admin sample_secret sample_hs256 7 (token response)
      get_all_menu_items db' = get_all_menu_items sample_admin db'.
Proof.
  destruct (login_flow_authorizes_admin sample_admin sample_secret sample_hs256
              two_item_store sample_randint 0 1 5 6 7 false
              (list MenuItem) get_all_menu_items)
    as (response & db' & Hverify & _ & Hgate & Hroute).
  - vm_compute. discriminate.
  - vm_compute. discriminate.
  - exists response, db'. split; [exact Hverify|]. split; [exact Hgate | exact Hroute].
Defined.

Lemma newer_request_supersedes_code_witness :
  let twice :=
    snd (send_otp sample_admin other_randint 2 3 true (mkSendOTPRequest sample_admin)
           (snd (send_otp sample_admin sample_randint 0 1 true
                   (mkSendOTPRequest sample_admin) empty_store))) in
  verify_otp sample_admin sample_secret sample_hs256 5 6
    (mkVerifyOTPRequest sample_admin "100000") twice =
    (Raise (HTTPException 400 "Invalid OTP"), twice) /\
  fst (verify_otp sample_admin sample_secret sample_hs256 5 6
         (mkVerifyOTPRequest sample_admin "999999") twice) =
    Ok {| token := create_jwt_token sample_secret sample_hs256 6 sample_admin;
          email := sample_admin |}.
Proof.
  apply (newer_request_supersedes_code sample_admin sample_secret sample_hs256
           empty_store sample_randint other_randint 0 1 2 3 5 6 true true).
  - vm_compute. discriminate.
  - vm_compute. discriminate.
Defined.

Lemma wrong_attempts_are_not_limited_witness :
  let tried :=
    verify_attempts sample_admin sample_secret sample_hs256
      [(1, 1, "000000"); (2, 2, "000001"); (3, 3, "999999")] challenge_store in
  fst tried = [Raise (HTTPException 400 "Invalid OTP");
               Raise (HTTPException 400 "Invalid OTP");
               Raise (HTTPException 400 "Invalid OTP")] /\
  snd tried = challenge_store /\
  fst (verify_otp sample_admin sample_secret sample_hs256 4 5
         (mkVerifyOTPRequest sample_admin "100000") (snd tried)) =
    Ok {| token := create_jwt_token sample_secret sample_hs256 5 sample_admin;
          email := sample_admin |}.
Proof.
  apply (wrong_attempts_are_not_limited sample_admin sample_secret sample_hs256
           [] [] [] sample_challenge
           [(1, 1, "000000"); (2, 2, "000001"); (3, 3, "999999")] 4 5).
  - reflexivity.
  - intros x [].
  - repeat constructor; cbn; vm_compute; discriminate.
  - vm_compute. discriminate.
Defined.

Lemma otp_validity_window_witness :
  let requested :=
    snd (send_otp sample_admin sample_randint 0 1 true
           (mkSendOTPRequest sample_admin) empty_store) in
  fst (verify_otp sample_admin sample_secret sample_hs256 600000001 9
         (mkVerifyOTPRequest sample_admin "100000") requested) =
    Ok {| token := create_jwt_token sample_secret sample_hs256 9 sample_admin;
          email := sample_admin |} /\
  fst (verify_otp sample_admin sample_secret sample_hs256 600000002 9
         (mkVerifyOTPRequest sample_admin "100000") requested) =
    Raise (HTTPException 400 "OTP has expired").
Proof.
  destruct (otp_validity_window sample_admin sample_secret sample_hs256
              empty_store sample_randint 0 1 600000001 9 600000003 10 true "100000")
    as [Hin _].
  destruct (otp_validity_window sample_admin sample_secret sample_hs256
              empty_store sample_randint 0 1 600000002 9 600000003 10 true "100000")
    as [_ Hout].
  split; [apply Hin; vm_compute; discriminate|].
  destruct Hout as [Hlate _]; [vm_compute; reflexivity | exact Hlate].
Defined.

Lemma verify_without_challenge_not_found_witness :
  verify_otp sample_admin sample_secret sample_hs256 1 2
    (mkVerifyOTPRequest sample_admin "100000") one_item_store =
    (Raise (HTTPException 404 "OTP not found or expired"), one_item_store).
Proof.
  apply (verify_without_challenge_not_found sample_admin sample_secret sample_hs256
           one_item_store 1 2 "100000").
  intros x [].
Defined.

Lemma generate_otp_six_digits_witness :
  String.length (generate_otp other_randint) = 6%nat /\
  (forall randint' : Z -> Z -> Z,
     generate_otp randint' = generate_otp other_randint ->
     randint' 100000 999999 = 999999).
Proof.
  destruct (generate_otp_six_digits other_randint) as (_ & Hlen & Hinj).
  - vm_compute. split; discriminate.
  - split; [exact Hlen | exact Hinj].
Defined.
